(** * mcp-time-srv: the time engine, the tool handlers and the session tables

    A shallow embedding of [src/server.ts].  The definitions come first:

    - [JS]: the JavaScript built-ins the server relies on (string search,
      number printing, [toFixed], the two regular-expression replacements,
      property lookup on a plain object used as a map);
    - [Luxon]: the calls the server makes into the Luxon date library
      ([IANAZone.isValidZone], [DateTime.now], [setZone], [set],
      [fromFormat], [toISO]); the time-zone database itself is a parameter;
    - [Srv]: the time functions and the two tool handlers of [server.ts];
    - [Sessions]: the two transport registries and the three routes, as an
      event system over a heap of transport objects;
    - [Sample]: a small zone database and environments for concrete runs;
    - [Spec]: the notions the properties are stated against.

    The properties follow, grouped by the part of the server they are
    about. *)

From Stdlib Require Import ZArith Lia Bool List Ascii.
From Stdlib Require String.
From stdpp Require Import gmap strings.

Local Open Scope Z_scope.

(** String append is unfolded by [simpl] and [cbn] in this file. *)
#[local] Arguments String.append !s1 s2 : simpl nomatch.

(* ====================================================================== *)
(** ** JavaScript built-ins *)
(* ====================================================================== *)

Module JS.

(** [s.includes(needle)]: [needle] occurs somewhere in [s]. *)
Fixpoint includes (s needle : string) : bool :=
  String.prefix needle s ||
  match s with
  | EmptyString => false
  | String _ rest => includes rest needle
  end.

(** Truthiness of an optional string: [undefined] and [""] are falsy. *)
Definition truthy (v : option string) : bool :=
  match v with
  | None => false
  | Some s => negb (String.eqb s "")
  end.

(** [a || b] for an optional string [a] and a string [b]. *)
Definition or_else (a : option string) (b : string) : string :=
  match a with
  | Some s => if String.eqb s "" then b else s
  | None => b
  end.

Definition digit_char (d : Z) : ascii := ascii_of_nat (48 + Z.to_nat d).

Definition is_digit (c : ascii) : bool :=
  let n := nat_of_ascii c in (48 <=? n)%nat && (n <=? 57)%nat.

(** Decimal digits of a non-negative integer, most significant first.
    [fuel] bounds the number of digits. *)
Fixpoint digits_from (fuel : nat) (n : Z) (acc : string) : string :=
  match fuel with
  | O => acc
  | S fuel' =>
      let acc' := String (digit_char (n mod 10)) acc in
      if n <? 10 then acc' else digits_from fuel' (n / 10) acc'
  end.

Definition decimal (n : Z) : string :=
  digits_from (S (Z.to_nat (Z.log2 n))) n "".

(** [String(n)] / template-literal printing of an integral Number. *)
Definition number_to_string (n : Z) : string :=
  if n <? 0 then "-" +:+ decimal (- n) else decimal n.

(** No character of [s] is [x]. *)
Fixpoint lacks (x : ascii) (s : string) : bool :=
  match s with
  | EmptyString => true
  | String c rest => negb (Ascii.eqb c x) && lacks x rest
  end.

Fixpoint repeat_char (c : ascii) (k : nat) : string :=
  match k with
  | O => ""
  | S k' => String c (repeat_char c k')
  end.

(** [s.padStart(n, "0")]. *)
Definition pad_start0 (s : string) (n : nat) : string :=
  repeat_char "0" (n - String.length s) +:+ s.

(** [x.toFixed(2)] for the Number [num / den] ([den > 0]), following
    ECMA-262 Number.prototype.toFixed: the sign is split off, [n] is the
    integer closest to [|x| * 100] (the larger one on a tie), its decimal
    digits are left-padded with zeros to three characters and a point is
    placed before the last two.  The quotient is kept exact; for the
    minute counts that reach this function (whole minutes, a few thousand
    at most) the nearest double of [num / 60] is never within a rounding
    error of a tie, so the exact quotient and the double print alike. *)
Definition to_fixed2 (num den : Z) : string :=
  let sign := if num <? 0 then "-" else "" in
  let a := Z.abs num in
  let n := (200 * a + den) / (2 * den) in
  let m := pad_start0 (decimal n) 3 in
  let k := String.length m in
  sign +:+ String.substring 0 (k - 2) m +:+ "." +:+ String.substring (k - 2) 2 m.

(** [s.replace(/\.00$/, '')]. *)
Fixpoint replace_dot00 (s : string) : string :=
  match s with
  | EmptyString => ""
  | String c rest =>
      if String.eqb s ".00" then "" else String c (replace_dot00 rest)
  end.

(** [s.replace(/(\.\d)0$/, '$1')]. *)
Fixpoint replace_dotd0 (s : string) : string :=
  match s with
  | EmptyString => ""
  | String c rest =>
      match rest with
      | String d (String z EmptyString) =>
          if Ascii.eqb c "." && is_digit d && Ascii.eqb z "0"
          then String c (String d "")
          else String c (replace_dotd0 rest)
      | _ => String c (replace_dotd0 rest)
      end
  end.

(** Property names every plain object inherits from [Object.prototype];
    [obj[k]] finds them when [obj] has no own property [k]. *)
Definition object_prototype_keys : list string :=
  [ "constructor"; "__proto__"; "hasOwnProperty"; "isPrototypeOf";
    "propertyIsEnumerable"; "toLocaleString"; "toString"; "valueOf";
    "__defineGetter__"; "__defineSetter__"; "__lookupGetter__";
    "__lookupSetter__" ].

(** The result of [obj[k]] on a plain object whose own properties are the
    finite map [own]. *)
Inductive prop_value (A : Type) : Type :=
  | Own (a : A)
  | Inherited
  | Undefined.
Arguments Own {A} a.
Arguments Inherited {A}.
Arguments Undefined {A}.

(** Truthiness of a looked-up value: transports, and the functions and
    objects of the prototype, are truthy; [undefined] is not. *)
Definition truthy_prop {A} (v : prop_value A) : bool :=
  match v with
  | Undefined => false
  | _ => true
  end.

Definition get_prop {A} (own : gmap string A) (k : string) : prop_value A :=
  match own !! k with
  | Some a => Own a
  | None => if bool_decide (k ∈ object_prototype_keys) then Inherited else Undefined
  end.

End JS.

(* ====================================================================== *)
(** ** The Luxon calls made by the server *)
(* ====================================================================== *)

(** Luxon is a dependency of the repository.  The definitions below follow
    the behaviour of the release line the server is built against (3.x):
    instants are milliseconds since the epoch, offsets are minutes east of
    UTC, a [DateTime] carries its instant, its zone and the offset in force.
    The time-zone database (which names exist, which offset a zone has at
    an instant) belongs to the host and is a parameter. *)

Module Luxon.

Record ZoneDb : Type := {
  (** [IANAZone.isValidZone(name)] *)
  valid_zone : string -> bool;
  (** offset of the named zone at an instant, in minutes *)
  zone_offset : string -> Z -> Z
}.

Inductive Zone : Type :=
  | SystemZone (name : string)   (** [Settings.defaultZone], the host zone *)
  | FixedUTC                     (** [FixedOffsetZone.utcInstance] *)
  | IANA (name : string).

Record DateTime : Type := {
  ts : Z;        (** epoch milliseconds *)
  zone : Zone;
  o : Z          (** offset in minutes *)
}.

Definition lower_ascii (c : ascii) : ascii :=
  let n := nat_of_ascii c in
  if (65 <=? n)%nat && (n <=? 90)%nat then ascii_of_nat (n + 32) else c.

Fixpoint to_lower (s : string) : string :=
  match s with
  | EmptyString => ""
  | String c rest => String (lower_ascii c) (to_lower rest)
  end.

(** [normalizeZone(name)] for a name that [isValidZone] has accepted: the
    spellings "utc" and "gmt" (any case) give the fixed UTC zone, every
    other name an IANA zone.  (The remaining special spellings, "default",
    "local", "system" and "utc+h:mm", are not zone names of the host
    database; the server never reaches [setZone] with them.) *)
Definition normalize_zone (name : string) : Zone :=
  let lowered := to_lower name in
  if String.eqb lowered "utc" || String.eqb lowered "gmt" then FixedUTC
  else IANA name.

Definition zone_equals (a b : Zone) : bool :=
  match a, b with
  | SystemZone _, SystemZone _ => true
  | FixedUTC, FixedUTC => true
  | IANA x, IANA y => String.eqb x y
  | _, _ => false
  end.

Definition is_universal (z : Zone) : bool :=
  match z with FixedUTC => true | _ => false end.

(** Civil date of a day number (days since 1970-01-01), as
    [getUTCFullYear], [getUTCMonth() + 1] and [getUTCDate] give it. *)
Definition civil_from_days (days : Z) : Z * Z * Z :=
  let z := days + 719468 in
  let era := z / 146097 in
  let doe := z - era * 146097 in
  let yoe := (doe - doe / 1460 + doe / 36524 - doe / 146096) / 365 in
  let y := yoe + era * 400 in
  let doy := doe - (365 * yoe + yoe / 4 - yoe / 100) in
  let mp := (5 * doy + 2) / 153 in
  let d := doy - (153 * mp + 2) / 5 + 1 in
  let m := if mp <? 10 then mp + 3 else mp - 9 in
  (if m <=? 2 then y + 1 else y, m, d).

(** [padStart(input, n)] of Luxon's util: zero-padded, sign in front. *)
Definition padStart (input : Z) (n : nat) : string :=
  if input <? 0 then "-" +:+ JS.pad_start0 (JS.number_to_string (- input)) n
  else JS.pad_start0 (JS.number_to_string input) n.

Section WithDb.

Variable db : ZoneDb.

Definition offset (z : Zone) (t : Z) : Z :=
  match z with
  | SystemZone name => zone_offset db name t
  | FixedUTC => 0
  | IANA name => zone_offset db name t
  end.

(** Local wall-clock fields: [tsToObj(ts, o)]. *)
Definition local_ms (dt : DateTime) : Z := ts dt + o dt * 60000.
Definition local_day (dt : DateTime) : Z := local_ms dt / 86400000.
Definition hour (dt : DateTime) : Z := (local_ms dt / 3600000) mod 24.
Definition minute (dt : DateTime) : Z := (local_ms dt / 60000) mod 60.
Definition second (dt : DateTime) : Z := (local_ms dt / 1000) mod 60.
Definition millisecond (dt : DateTime) : Z := local_ms dt mod 1000.
Definition year (dt : DateTime) : Z := fst (fst (civil_from_days (local_day dt))).
Definition month (dt : DateTime) : Z := snd (fst (civil_from_days (local_day dt))).
Definition day (dt : DateTime) : Z := snd (civil_from_days (local_day dt)).

(** [objToLocalTS]: [Date.UTC(year, month - 1, day, h, m, s, ms)], with the
    calendar date given by its day number. *)
Definition objToLocalTS (dayno h m s ms : Z) : Z :=
  dayno * 86400000 + h * 3600000 + m * 60000 + s * 1000 + ms.

(** [fixOffset(localTS, o, tz)]: find the instant whose wall clock in [tz]
    reads [localTS], starting from the guess that offset [o] applies. *)
Definition fixOffset (localTS o0 : Z) (tz : Zone) : Z * Z :=
  let utcGuess := localTS - o0 * 60000 in
  let o2 := offset tz utcGuess in
  if o0 =? o2 then (utcGuess, o0)
  else
    let utcGuess' := utcGuess - (o2 - o0) * 60000 in
    let o3 := offset tz utcGuess' in
    if o2 =? o3 then (utcGuess', o2)
    else (localTS - Z.min o2 o3 * 60000, Z.max o2 o3).

(** [DateTime.now()] with the system zone [sys] and clock reading [clock]. *)
Definition now (sys : string) (clock : Z) : DateTime :=
  {| ts := clock; zone := SystemZone sys; o := offset (SystemZone sys) clock |}.

(** [dt.setZone(name)]: same instant, other zone. *)
Definition setZone (dt : DateTime) (name : string) : DateTime :=
  let z := normalize_zone name in
  if zone_equals z (zone dt) then dt
  else {| ts := ts dt; zone := z; o := offset z (ts dt) |}.

(** [dt.set({ hour, minute, second: 0, millisecond: 0 })]: the date of [dt]
    is kept, the time of day replaced; the clone keeps the old offset only
    when the instant did not move. *)
Definition set_time (dt : DateTime) (h m : Z) : DateTime :=
  let '(t', _) := fixOffset (objToLocalTS (local_day dt) h m 0 0) (o dt) (zone dt) in
  if t' =? ts dt then dt
  else {| ts := t'; zone := zone dt; o := offset (zone dt) t' |}.

(** The token parser for the format 'HH:mm': the input must match
    [^(\d{2})(:)(\d{2})$]. *)
Definition digit_value (c : ascii) : Z := Z.of_nat (nat_of_ascii c) - 48.

Definition match_HHmm (s : string) : option (Z * Z) :=
  match s with
  | String a (String b (String sep (String c (String d EmptyString)))) =>
      if JS.is_digit a && JS.is_digit b && Ascii.eqb sep ":" &&
         JS.is_digit c && JS.is_digit d
      then Some (10 * digit_value a + digit_value b, 10 * digit_value c + digit_value d)
      else None
  | _ => None
  end.

(** [hasInvalidTimeData] for seconds and milliseconds zero: hour 24 is
    accepted with minute 0 (end of day). *)
Definition valid_time_data (h m : Z) : bool :=
  ((0 <=? h) && (h <=? 23) || (h =? 24) && (m =? 0)) && (0 <=? m) && (m <=? 59).

(** [DateTime.fromFormat(s, 'HH:mm')]: [None] stands for an invalid
    DateTime.  The missing date fields default to today in the system zone. *)
Definition fromFormat_HHmm (sys : string) (clock : Z) (s : string) : option DateTime :=
  match match_HHmm s with
  | None => None
  | Some (h, m) =>
      if valid_time_data h m then
        let z := SystemZone sys in
        let offsetProvis := offset z clock in
        let dayno := (clock + offsetProvis * 60000) / 86400000 in
        let '(t', o') := fixOffset (objToLocalTS dayno h m 0 0) offsetProvis z in
        Some {| ts := t'; zone := z; o := o' |}
      else None
  end.

(** [toISODate(dt, true)] *)
Definition toISODate (dt : DateTime) : string :=
  let y := year dt in
  let longFormat := (9999 <? y) || (y <? 0) in
  (if longFormat && (0 <=? y) then "+" else "") +:+
  padStart y (if longFormat then 6 else 4) +:+ "-" +:+
  padStart (month dt) 2 +:+ "-" +:+ padStart (day dt) 2.

(** [toISOTime(dt, true, false, suppressMilliseconds, true, false)]:
    [suppressMilliseconds] leaves the milliseconds out only when they are 0. *)
Definition toISOTime (dt : DateTime) (suppressMilliseconds : bool) : string :=
  padStart (hour dt) 2 +:+ ":" +:+ padStart (minute dt) 2 +:+ ":" +:+
  padStart (second dt) 2 +:+
  (if negb (millisecond dt =? 0) || negb suppressMilliseconds
   then "." +:+ padStart (millisecond dt) 3 else "") +:+
  (if is_universal (zone dt) && (o dt =? 0) then "Z"
   else if o dt <? 0 then
     "-" +:+ padStart (Z.quot (- o dt) 60) 2 +:+ ":" +:+ padStart (Z.rem (- o dt) 60) 2
   else
     "+" +:+ padStart (Z.quot (o dt) 60) 2 +:+ ":" +:+ padStart (Z.rem (o dt) 60) 2).

(** [dt.toISO({ includeOffset: true, suppressMilliseconds: true })] *)
Definition toISO (dt : DateTime) : string :=
  toISODate dt +:+ "T" +:+ toISOTime dt true.

End WithDb.

End Luxon.

(* ====================================================================== *)
(** ** server.ts: time handling logic *)
(* ====================================================================== *)

Module Srv.

Import Luxon.

Record TimeResult : Type := {
  timezone : string;
  datetime : string
}.

Record TimeConversionResult : Type := {
  source : TimeResult;
  target : TimeResult;
  time_difference : string
}.

(** How a call ends: with a value, or with [throw new Error(message)]. *)
Inductive completion (A : Type) : Type :=
  | Returned (a : A)
  | Thrown (message : string).
Arguments Returned {A} a.
Arguments Thrown {A} message.

(** What a call reads from the process around it: the system zone
    ([Settings.defaultZone.name]) and the readings of the clock
    ([Settings.now()]) in program order. *)
Record Env : Type := {
  sysZone : string;
  clock : Z;
  clock' : Z
}.

Definition getLocalTimezone (env : Env) : string := sysZone env.

Section Engine.

Variable db : ZoneDb.

Definition isValidTimezone (tz : string) : bool := valid_zone db tz.

Definition getCurrentTime (env : Env) (timezoneName : string) : completion TimeResult :=
  if negb (isValidTimezone timezoneName) then
    Thrown ("Invalid timezone: " +:+ timezoneName)
  else
    let nowInZone := setZone db (now db (sysZone env) (clock env)) timezoneName in
    Returned {| timezone := timezoneName; datetime := toISO nowInZone |}.

(** The offset difference in minutes, printed in hours.  [m / 60] is an
    integer exactly when 60 divides [m]. *)
Definition timeDiffStr (offsetDiffMinutes : Z) : string :=
  let plus := if 0 <=? offsetDiffMinutes then "+" else "" in
  if offsetDiffMinutes mod 60 =? 0 then
    plus +:+ JS.number_to_string (offsetDiffMinutes / 60) +:+ "h"
  else
    plus +:+ JS.replace_dotd0 (JS.replace_dot00 (JS.to_fixed2 offsetDiffMinutes 60)) +:+ "h".

(** The two DateTimes [convertTime] builds once its arguments are accepted. *)
Definition sourceDt (env : Env) (sourceTz : string) (parsedTime : DateTime) : DateTime :=
  set_time db (setZone db (now db (sysZone env) (clock' env)) sourceTz)
    (hour parsedTime) (minute parsedTime).

Definition targetDt (env : Env) (sourceTz targetTz : string) (parsedTime : DateTime) : DateTime :=
  setZone db (sourceDt env sourceTz parsedTime) targetTz.

Definition convertTime (env : Env) (sourceTz timeStr targetTz : string)
  : completion TimeConversionResult :=
  if negb (isValidTimezone sourceTz) then
    Thrown ("Invalid source timezone: " +:+ sourceTz)
  else if negb (isValidTimezone targetTz) then
    Thrown ("Invalid target timezone: " +:+ targetTz)
  else
    match fromFormat_HHmm db (sysZone env) (clock env) timeStr with
    | None => Thrown "Invalid time format. Expected HH:MM [24-hour format]"
    | Some parsedTime =>
        let src := sourceDt env sourceTz parsedTime in
        let tgt := targetDt env sourceTz targetTz parsedTime in
        let offsetDiffMinutes := o tgt - o src in
        Returned {|
          source := {| timezone := sourceTz; datetime := toISO src |};
          target := {| timezone := targetTz; datetime := toISO tgt |};
          time_difference := timeDiffStr offsetDiffMinutes
        |}
    end.

End Engine.

(* ---------------------------------------------------------------------- *)
(** *** The tool handlers registered by [buildMcpServer] *)
(* ---------------------------------------------------------------------- *)

Definition dquote : string := String (ascii_of_nat 34) "".
Definition newline : string := String (ascii_of_nat 10) "".

Definition hex_digit (n : nat) : ascii :=
  if (n <? 10)%nat then ascii_of_nat (48 + n) else ascii_of_nat (87 + n).

(** [JSON.stringify] of a string: quotes, backslashes and control
    characters are escaped. *)
Definition json_escape_char (c : ascii) : string :=
  let n := nat_of_ascii c in
  if (n =? 34)%nat then "\" +:+ dquote
  else if (n =? 92)%nat then "\\"
  else if (n =? 8)%nat then "\b"
  else if (n =? 12)%nat then "\f"
  else if (n =? 10)%nat then "\n"
  else if (n =? 13)%nat then "\r"
  else if (n =? 9)%nat then "\t"
  else if (n <? 32)%nat then
    "\u00" +:+ String (hex_digit (n / 16)) (String (hex_digit (n mod 16)) "")
  else String c "".

Fixpoint json_escape (s : string) : string :=
  match s with
  | EmptyString => ""
  | String c rest => json_escape_char c +:+ json_escape rest
  end.

Definition json_string (s : string) : string := dquote +:+ json_escape s +:+ dquote.

(** One object member at indentation [ind], as [JSON.stringify(_, null, 2)]
    lays it out. *)
Definition json_member (ind key value : string) : string :=
  ind +:+ dquote +:+ key +:+ dquote +:+ ": " +:+ value.

Definition json_TimeResult (ind : string) (r : TimeResult) : string :=
  "{" +:+ newline +:+
  json_member (ind +:+ "  ") "timezone" (json_string (timezone r)) +:+ "," +:+ newline +:+
  json_member (ind +:+ "  ") "datetime" (json_string (datetime r)) +:+ newline +:+
  ind +:+ "}".

Definition json_TimeConversionResult (r : TimeConversionResult) : string :=
  "{" +:+ newline +:+
  json_member "  " "source" (json_TimeResult "  " (source r)) +:+ "," +:+ newline +:+
  json_member "  " "target" (json_TimeResult "  " (target r)) +:+ "," +:+ newline +:+
  json_member "  " "time_difference" (json_string (time_difference r)) +:+ newline +:+
  "}".

(** The result envelope [{ content: [{ type: "text", text }] }]. *)
Inductive ContentItem : Type :=
  | TextContent (text : string).

Record ToolResult : Type := { content : list ContentItem }.

Definition text_result (text : string) : ToolResult :=
  {| content := [TextContent text] |}.

(** How an [async] handler settles. *)
Inductive settled : Type :=
  | Resolved (r : ToolResult)
  | Rejected (message : string).

(** The instance [buildMcpServer] returns: both handlers close over the
    [localTz] read when the instance was built. *)
Record McpServer : Type := { localTz : string }.

Definition buildMcpServer (env : Env) : McpServer :=
  {| localTz := getLocalTimezone env |}.

(** The schema of [convert_time]'s [time] argument: [/^\d{2}:\d{2}$/]. *)
Definition time_schema (s : string) : bool :=
  match s with
  | String a (String b (String sep (String c (String d EmptyString)))) =>
      JS.is_digit a && JS.is_digit b && Ascii.eqb sep ":" &&
      JS.is_digit c && JS.is_digit d
  | _ => false
  end.

Section Handlers.

Variable db : ZoneDb.

Definition get_current_time_handler (srv : McpServer) (env : Env)
    (timezone : option string) : settled :=
  let effectiveTimezone := JS.or_else timezone (localTz srv) in
  match getCurrentTime db env effectiveTimezone with
  | Returned result => Resolved (text_result (json_TimeResult "" result))
  | Thrown message =>
      let helpfulMessage :=
        if JS.includes message "Invalid timezone" then
          "Error: Invalid timezone specified ('" +:+ effectiveTimezone +:+
          "'). Please provide a valid IANA timezone name (e.g., 'America/New_York', 'Europe/London')."
        else "Error processing get_current_time: " +:+ message in
      Resolved (text_result helpfulMessage)
  end.

Definition convert_time_handler (srv : McpServer) (env : Env)
    (source_timezone : option string) (time : string)
    (target_timezone : option string) : settled :=
  let effectiveSourceTz := JS.or_else source_timezone (localTz srv) in
  let effectiveTargetTz := JS.or_else target_timezone (localTz srv) in
  match convertTime db env effectiveSourceTz time effectiveTargetTz with
  | Returned result => Resolved (text_result (json_TimeConversionResult result))
  | Thrown message =>
      let helpfulMessage :=
        if JS.includes message "Invalid source timezone" then
          "Error: Invalid source timezone specified ('" +:+ effectiveSourceTz +:+
          "'). Please provide a valid IANA timezone name."
        else if JS.includes message "Invalid target timezone" then
          "Error: Invalid target timezone specified ('" +:+ effectiveTargetTz +:+
          "'). Please provide a valid IANA timezone name."
        else if JS.includes message "Invalid time format" then
          "Error: Invalid time format specified ('" +:+ time +:+
          "'). Please use 24-hour HH:MM format (e.g., '14:30')."
        else "Error processing convert_time: " +:+ message in
      Resolved (text_result helpfulMessage)
  end.

End Handlers.

End Srv.

(* ====================================================================== *)
(** ** server.ts: transport registries and Express wiring *)
(* ====================================================================== *)

Module Sessions.

Import Srv.

Inductive TransportKind : Type := Streamable | Sse.

(** A transport object of the SDK, as far as the server reads it: its
    [sessionId] (unset on a streamable transport until the SDK has handled
    the initialize request) and the server instance connected to it. *)
Record Transport : Type := {
  kind : TransportKind;
  sessionId : option string;
  server : McpServer
}.

(** The process state: the transport objects by reference, the two
    registries [streamableTransports] and [sseTransports] (own properties
    of two plain objects, holding references), the next free reference,
    and the values [getLocalTimezone()] has returned so far, one entry per
    call, oldest first. *)
Record State : Type := {
  heap : gmap nat Transport;
  streamableTransports : gmap string nat;
  sseTransports : gmap string nat;
  next_ref : nat;
  zone_reads : list string
}.

(** The state after startup: [app.listen] registers nothing and calls
    neither [buildMcpServer] nor [getLocalTimezone]. *)
Definition init : State :=
  {| heap := ∅; streamableTransports := ∅; sseTransports := ∅; next_ref := 0;
     zone_reads := [] |}.

Inductive Response : Type :=
  | JsonRpcError (status code : Z) (message : string)
      (** [res.status(s).json({ jsonrpc: "2.0", error: { code, message }, id: null })] *)
  | PlainText (status : Z) (body : string)
      (** [res.status(s).send(body)] *)
  | Delegated (ref : nat)
      (** the transport [ref] answers ([handleRequest], [handlePostMessage]) *)
  | Opened (ref : nat)
      (** the event stream of the new transport [ref] is open *)
  | TypeError (message : string)
      (** the handler's promise rejects *)
  | NoResponse.

(** What reaches the process: the three routes, and the callbacks the SDK
    and the HTTP layer fire on a transport. *)
Inductive Event : Type :=
  | McpRequest (sessionIdHeader : option string) (isInitializeRequest : bool)
  | SessionInitialized (ref : nat) (id : string)
      (** the SDK initialises streamable transport [ref] with the generated
          [id] and calls [onsessioninitialized(id)] *)
  | StreamableClosed (ref : nat)
      (** the SDK calls [transport.onclose] *)
  | SseRequest (id : string)
      (** GET /sse; [id] is the session id the new transport generates *)
  | SseClosed (ref : nat)
      (** the "close" event of the response of transport [ref] *)
  | MessagesRequest (sessionIdQuery : option string).

Definition set_sessionId (t : Transport) (id : string) : Transport :=
  {| kind := kind t; sessionId := Some id; server := server t |}.

Definition alloc (st : State) (t : Transport) : State :=
  {| heap := <[next_ref st := t]> (heap st);
     streamableTransports := streamableTransports st;
     sseTransports := sseTransports st;
     next_ref := S (next_ref st);
     zone_reads := zone_reads st |}.

(** [buildMcpServer()] in the state: the call of [getLocalTimezone()] is
    recorded. *)
Definition build_logged (env : Env) (st : State) : State * McpServer :=
  ({| heap := heap st;
      streamableTransports := streamableTransports st;
      sseTransports := sseTransports st;
      next_ref := next_ref st;
      zone_reads := zone_reads st ++ [getLocalTimezone env] |},
   buildMcpServer env).

(** [app.all("/mcp", ...)] up to the call of [transport.handleRequest]. *)
Definition mcp_route (env : Env) (st : State) (sessionIdHeader : option string)
    (isInitializeRequest : bool) : State * Response :=
  let found :=
    match sessionIdHeader with
    | Some sid => JS.get_prop (streamableTransports st) sid
    | None => JS.Undefined
    end in
  if JS.truthy sessionIdHeader && JS.truthy_prop found then
    match found with
    | JS.Own ref => (st, Delegated ref)
    | _ => (st, TypeError "transport.handleRequest is not a function")
    end
  else if negb (JS.truthy sessionIdHeader) && isInitializeRequest then
    let '(st1, srv) := build_logged env st in
    (alloc st1 {| kind := Streamable; sessionId := None; server := srv |},
     Delegated (next_ref st))
  else
    (st, JsonRpcError 400 (-32000) "Bad Request: invalid MCP handshake").

(** The SDK sets the session id of an uninitialised streamable transport
    and runs [onsessioninitialized]:
    [id => { streamableTransports[id] = transport }]. *)
Definition session_initialized (st : State) (ref : nat) (id : string) : State :=
  match heap st !! ref with
  | Some t =>
      match kind t, sessionId t with
      | Streamable, None =>
          {| heap := <[ref := set_sessionId t id]> (heap st);
             streamableTransports := <[id := ref]> (streamableTransports st);
             sseTransports := sseTransports st;
             next_ref := next_ref st;
             zone_reads := zone_reads st |}
      | _, _ => st
      end
  | None => st
  end.

(** [transport.onclose] of a streamable transport:
    [if (transport.sessionId) delete streamableTransports[transport.sessionId]]. *)
Definition streamable_closed (st : State) (ref : nat) : State :=
  match heap st !! ref with
  | Some t =>
      match kind t with
      | Streamable =>
          if JS.truthy (sessionId t) then
            match sessionId t with
            | Some id =>
                {| heap := heap st;
                   streamableTransports := delete id (streamableTransports st);
                   sseTransports := sseTransports st;
                   next_ref := next_ref st;
                   zone_reads := zone_reads st |}
            | None => st
            end
          else st
      | Sse => st
      end
  | None => st
  end.

(** [app.get("/sse", ...)]: the transport is registered under the id it
    generated, then a server instance is built and connected. *)
Definition sse_route (env : Env) (st : State) (id : string) : State * Response :=
  let ref := next_ref st in
  let '(st1, srv) := build_logged env st in
  ({| heap := <[ref := {| kind := Sse; sessionId := Some id; server := srv |}]> (heap st1);
      streamableTransports := streamableTransports st1;
      sseTransports := <[id := ref]> (sseTransports st1);
      next_ref := S ref;
      zone_reads := zone_reads st1 |},
   Opened ref).

(** The "close" handler of an SSE response:
    [delete sseTransports[transport.sessionId]]. *)
Definition sse_closed (st : State) (ref : nat) : State :=
  match heap st !! ref with
  | Some t =>
      match kind t, sessionId t with
      | Sse, Some id =>
          {| heap := heap st;
             streamableTransports := streamableTransports st;
             sseTransports := delete id (sseTransports st);
             next_ref := next_ref st;
             zone_reads := zone_reads st |}
      | _, _ => st
      end
  | None => st
  end.

(** [app.post("/messages", ...)]; an absent query parameter indexes the
    registry with the key "undefined". *)
Definition messages_route (st : State) (sessionIdQuery : option string) : State * Response :=
  let key := match sessionIdQuery with Some s => s | None => "undefined" end in
  let transport := JS.get_prop (sseTransports st) key in
  if negb (JS.truthy_prop transport) then
    (st, PlainText 400 "Unknown or expired sessionId")
  else
    match transport with
    | JS.Own ref => (st, Delegated ref)
    | _ => (st, TypeError "transport.handlePostMessage is not a function")
    end.

Definition step (env : Env) (st : State) (e : Event) : State * Response :=
  match e with
  | McpRequest sid isInit => mcp_route env st sid isInit
  | SessionInitialized ref id => (session_initialized st ref id, NoResponse)
  | StreamableClosed ref => (streamable_closed st ref, NoResponse)
  | SseRequest id => sse_route env st id
  | SseClosed ref => (sse_closed st ref, NoResponse)
  | MessagesRequest sid => messages_route st sid
  end.

(** Session ids come from [randomUUID()]: 36 characters, hexadecimal
    digits and dashes. *)
Definition is_uuid_char (c : ascii) : bool :=
  let n := nat_of_ascii c in
  JS.is_digit c || ((97 <=? n)%nat && (n <=? 102)%nat) || (n =? 45)%nat.

Fixpoint all_uuid_chars (s : string) : bool :=
  match s with
  | EmptyString => true
  | String c rest => is_uuid_char c && all_uuid_chars rest
  end.

Definition is_uuid (s : string) : bool :=
  (String.length s =? 36)%nat && all_uuid_chars s.

Definition event_ok (e : Event) : Prop :=
  match e with
  | SessionInitialized _ id => is_uuid id = true
  | SseRequest id => is_uuid id = true
  | _ => True
  end.

(** The states the process can be in: any number of events, each in the
    environment of its moment. *)
Inductive reachable : State -> Prop :=
  | reachable_init : reachable init
  | reachable_step (env : Env) (st : State) (e : Event) :
      reachable st -> event_ok e -> reachable (fst (step env st e)).

(** Running a list of events, each with its environment. *)
Fixpoint run (st : State) (es : list (Env * Event)) : State :=
  match es with
  | [] => st
  | (env, e) :: rest => run (fst (step env st e)) rest
  end.

(** Every key of a registry maps to a transport whose own session id is
    that key. *)
Definition keys_match (h : gmap nat Transport) (table : gmap string nat) : Prop :=
  forall (k : string) (ref : nat),
    table !! k = Some ref ->
    exists t, h !! ref = Some t /\ sessionId t = Some k.

Definition key_integrity (st : State) : Prop :=
  keys_match (heap st) (streamableTransports st) /\
  keys_match (heap st) (sseTransports st).

(** References in use lie below the next free one. *)
Definition refs_bounded (st : State) : Prop :=
  forall (ref : nat) (t : Transport), heap st !! ref = Some t -> (ref < next_ref st)%nat.

(** One call of [getLocalTimezone()] per transport created, and the
    instance of transport [ref] carries the value of call number [ref]. *)
Definition reads_match (st : State) : Prop :=
  (length (zone_reads st) = next_ref st)%nat /\
  forall (ref : nat) (t : Transport),
    heap st !! ref = Some t -> zone_reads st !! ref = Some (localTz (server t)).

End Sessions.

(* ====================================================================== *)
(** ** A small zone database for concrete runs *)
(* ====================================================================== *)

(** Six zones with the rules in force during 2024: daylight saving time in
    New York from 2024-03-10T07:00Z to 2024-11-03T06:00Z and in London from
    2024-03-31T01:00Z to 2024-10-27T01:00Z. *)
Module Sample.

Definition zones : list string :=
  [ "UTC"; "Asia/Tokyo"; "Asia/Kathmandu"; "Asia/Kolkata";
    "Europe/London"; "America/New_York" ].

Definition offsets (name : string) (t : Z) : Z :=
  if String.eqb name "Asia/Tokyo" then 540
  else if String.eqb name "Asia/Kathmandu" then 345
  else if String.eqb name "Asia/Kolkata" then 330
  else if String.eqb name "Europe/London" then
    if (1711846800000 <=? t) && (t <? 1729990800000) then 60 else 0
  else if String.eqb name "America/New_York" then
    if (1710054000000 <=? t) && (t <? 1730613600000) then -240 else -300
  else 0.

Definition db : Luxon.ZoneDb :=
  {| Luxon.valid_zone := fun name => existsb (String.eqb name) zones;
     Luxon.zone_offset := offsets |}.

(** 2024-07-01T12:34:56.789Z, host zone UTC. *)
Definition env : Srv.Env :=
  {| Srv.sysZone := "UTC"; Srv.clock := 1719837296789; Srv.clock' := 1719837296789 |}.


(** The same moment on a host whose zone is Tokyo. *)
Definition env_tokyo : Srv.Env :=
  {| Srv.sysZone := "Asia/Tokyo"; Srv.clock := 1719837296789; Srv.clock' := 1719837296789 |}.

Definition uuid1 : string := "123e4567-e89b-42d3-a456-426614174000".
Definition uuid2 : string := "9b2e1c7a-5f0d-4c3b-8a6e-0d1f2a3b4c5d".

End Sample.

(* ====================================================================== *)
(** ** The claims' reference notions *)
(* ====================================================================== *)

Module Spec.

(** The strict shape of a time string in the specification's words: two
    digits, a colon, two digits, hour 00-23 and minute 00-59. *)
Definition strict_HHMM (s : string) : bool :=
  match s with
  | String a (String b (String sep (String c (String d EmptyString)))) =>
      JS.is_digit a && JS.is_digit b && Ascii.eqb sep ":" &&
      JS.is_digit c && JS.is_digit d &&
      (10 * Luxon.digit_value a + Luxon.digit_value b <=? 23) &&
      (10 * Luxon.digit_value c + Luxon.digit_value d <=? 59)
  | _ => false
  end.

(** The difference string in the specification's words: the sign, then the
    hours; whole hours without a decimal point, otherwise the hours rounded
    to hundredths with a trailing zero dropped. *)
Definition time_difference (minutes : Z) : string :=
  let sign := if 0 <=? minutes then "+" else "-" in
  let a := Z.abs minutes in
  if a mod 60 =? 0 then sign +:+ JS.decimal (a / 60) +:+ "h"
  else
    let c := (100 * a + 30) / 60 in
    sign +:+ JS.decimal (c / 100) +:+ "." +:+
    String (JS.digit_char (c / 10 mod 10))
      (if c mod 10 =? 0 then "" else String (JS.digit_char (c mod 10)) "") +:+ "h".

(** The wall-clock time HH:MM that a caller reads off an ISO string: the
    five characters after the "T". *)
Fixpoint after_T (s : string) : string :=
  match s with
  | EmptyString => ""
  | String c rest => if Ascii.eqb c "T" then rest else after_T rest
  end.

Definition wall_clock (iso : string) : string :=
  String.substring 0 5 (after_T iso).


(** Zone [z] keeps the offset [c] at every instant less than a day away
    from a clock reading of [env]. *)
Definition steady (db : Luxon.ZoneDb) (env : Srv.Env) (z : Luxon.Zone) (c : Z) : Prop :=
  forall t : Z,
    Z.abs (t - Srv.clock env) < 86400000 \/ Z.abs (t - Srv.clock' env) < 86400000 ->
    Luxon.offset db z t = c.

(** The text a settled tool call carries: the one text item of its
    envelope. *)
Definition payload (s : Srv.settled) : string :=
  match s with
  | Srv.Resolved {| Srv.content := [Srv.TextContent text] |} => text
  | _ => ""
  end.

(** The time strings [convertTime] parses. *)
Definition accepted_time (s : string) : bool :=
  strict_HHMM s || String.eqb s "24:00".

(** The part of the difference string after the sign, for [a] minutes. *)
Definition difference_body (a : Z) : string :=
  if a mod 60 =? 0 then JS.decimal (a / 60) +:+ "h"
  else
    let c := (100 * a + 30) / 60 in
    JS.decimal (c / 100) +:+ "." +:+
    String (JS.digit_char (c / 10 mod 10))
      (if c mod 10 =? 0 then "" else String (JS.digit_char (c mod 10)) "") +:+ "h".

(** The number a string of decimal digits denotes, continuing from [acc]. *)
Fixpoint digits_value (s : string) (acc : Z) : Z :=
  match s with
  | EmptyString => acc
  | String c rest => digits_value rest (10 * acc + Luxon.digit_value c)
  end.

(** Every character of [s] is a decimal digit. *)
Fixpoint all_digits (s : string) : bool :=
  match s with
  | EmptyString => true
  | String c rest => JS.is_digit c && all_digits rest
  end.

(** Every key of a registry is a session id of the generated shape. *)
Definition keys_generated (st : Sessions.State) : Prop :=
  (forall (key : string) (ref : nat),
     Sessions.streamableTransports st !! key = Some ref -> Sessions.is_uuid key = true) /\
  (forall (key : string) (ref : nat),
     Sessions.sseTransports st !! key = Some ref -> Sessions.is_uuid key = true).

(** Every key of a registry maps to a transport of the registry's kind. *)
Definition kind_of (h : gmap nat Sessions.Transport) (table : gmap string nat)
    (k : Sessions.TransportKind) : Prop :=
  forall (key : string) (ref : nat),
    table !! key = Some ref ->
    exists t, h !! ref = Some t /\ Sessions.kind t = k.

Definition kinds_match (st : Sessions.State) : Prop :=
  kind_of (Sessions.heap st) (Sessions.streamableTransports st) Sessions.Streamable /\
  kind_of (Sessions.heap st) (Sessions.sseTransports st) Sessions.Sse.

(** The offset suffix of an ISO datetime in a zone whose offset is [c]
    minutes: "Z" for the UTC zone, otherwise the sign, two digits of
    hours, a colon and two digits of minutes. *)
Definition offset_suffix (z : Luxon.Zone) (c : Z) : string :=
  match z with
  | Luxon.FixedUTC => "Z"
  | _ =>
      (if c <? 0 then "-" else "+") +:+
      Luxon.padStart (Z.abs c / 60) 2 +:+ ":" +:+ Luxon.padStart (Z.abs c mod 60) 2
  end.

End Spec.

(* ====================================================================== *)
(** ** Properties *)
(* ====================================================================== *)

Import Luxon Srv.

Example includes_ex1 : JS.includes "Invalid timezone: Mars" "Invalid timezone" = true.
Proof. reflexivity. Qed.

Example number_to_string_ex :
  JS.number_to_string (-5) = "-5" /\ JS.number_to_string 0 = "0" /\
  JS.number_to_string 1234567 = "1234567".
Proof. repeat split; reflexivity. Qed.

Example to_fixed2_ex :
  JS.to_fixed2 345 60 = "5.75" /\ JS.to_fixed2 (-330) 60 = "-5.50" /\
  JS.to_fixed2 1 60 = "0.02".
Proof. repeat split; reflexivity. Qed.

Example replace_ex :
  JS.replace_dotd0 (JS.replace_dot00 "-5.50") = "-5.5" /\ JS.replace_dot00 "5.00" = "5".
Proof. repeat split; reflexivity. Qed.

Example civil_from_days_ex :
  civil_from_days 0 = (1970, 1, 1) /\ civil_from_days 19782 = (2024, 2, 29) /\
  civil_from_days (-1) = (1969, 12, 31).
Proof. repeat split; reflexivity. Qed.

Example convertTime_london_tokyo :
  convertTime Sample.db Sample.env "Europe/London" "14:30" "Asia/Tokyo" =
  Returned {|
    source := {| timezone := "Europe/London"; datetime := "2024-07-01T14:30:00+01:00" |};
    target := {| timezone := "Asia/Tokyo"; datetime := "2024-07-01T22:30:00+09:00" |};
    time_difference := "+8h" |}.
Proof. vm_compute. reflexivity. Qed.

(* ---------------------------------------------------------------------- *)
(** *** Strings *)
(* ---------------------------------------------------------------------- *)

Lemma prefix_app (p s : string) : String.prefix p (p +:+ s) = true.
Proof.
  induction p as [|c p IH]; simpl.
  - destruct s; reflexivity.
  - destruct (ascii_dec c c); [exact IH | congruence].
Qed.

Lemma includes_prefix (p s : string) : JS.includes (p +:+ s) p = true.
Proof.
  pose proof (prefix_app p s) as H.
  destruct (p +:+ s); cbn [JS.includes]; rewrite H; reflexivity.
Qed.

(* ---------------------------------------------------------------------- *)
(** *** Order of the argument checks in [convertTime] *)
(* ---------------------------------------------------------------------- *)

(** C7: [convertTime] checks the source zone first: with an invalid source
    zone it throws the source error whatever the target zone and the time
    string are; with a valid source and an invalid target zone it throws
    the target error whatever the time string is. *)
Theorem convertTime_zone_check_order (db : ZoneDb) (env : Env) (src tm tgt : string) :
  (isValidTimezone db src = false ->
   convertTime db env src tm tgt = Thrown ("Invalid source timezone: " +:+ src)) /\
  (isValidTimezone db src = true -> isValidTimezone db tgt = false ->
   convertTime db env src tm tgt = Thrown ("Invalid target timezone: " +:+ tgt)).
Proof.
  unfold convertTime. split.
  - intros ->. reflexivity.
  - intros -> ->. reflexivity.
Qed.

Lemma convertTime_zone_check_order_witness :
  convertTime Sample.db Sample.env "Pluto/Sputnik_Planitia" "lunchtime" "Jupiter/Great_Red_Spot"
    = Thrown "Invalid source timezone: Pluto/Sputnik_Planitia" /\
  convertTime Sample.db Sample.env "America/New_York" "lunchtime" "Jupiter/Great_Red_Spot"
    = Thrown "Invalid target timezone: Jupiter/Great_Red_Spot".
Proof.
  split.
  - apply (proj1 (convertTime_zone_check_order Sample.db Sample.env
             "Pluto/Sputnik_Planitia" "lunchtime" "Jupiter/Great_Red_Spot")).
    reflexivity.
  - apply (proj2 (convertTime_zone_check_order Sample.db Sample.env
             "America/New_York" "lunchtime" "Jupiter/Great_Red_Spot"));
    reflexivity.
Defined.

(* ---------------------------------------------------------------------- *)
(** *** Error texts of the tool handlers *)
(* ---------------------------------------------------------------------- *)

(** Neither handler ever rejects: the [try]/[catch] turns every throw of
    the time engine into a text result. *)
Lemma get_current_time_handler_resolves db srv env tz :
  exists r, get_current_time_handler db srv env tz = Resolved r.
Proof.
  unfold get_current_time_handler.
  destruct (getCurrentTime _ _ _); eexists; reflexivity.
Qed.

Lemma convert_time_handler_resolves db srv env src tm tgt :
  exists r, convert_time_handler db srv env src tm tgt = Resolved r.
Proof.
  unfold convert_time_handler.
  destruct (convertTime _ _ _ _ _); eexists; reflexivity.
Qed.

Lemma get_current_time_handler_invalid db srv env tz :
  isValidTimezone db (JS.or_else tz (localTz srv)) = false ->
  get_current_time_handler db srv env tz =
  Resolved (text_result
    ("Error: Invalid timezone specified ('" +:+ JS.or_else tz (localTz srv) +:+
     "'). Please provide a valid IANA timezone name (e.g., 'America/New_York', 'Europe/London').")).
Proof.
  intros H. unfold get_current_time_handler, getCurrentTime. rewrite H.
  cbn [negb]. reflexivity.
Qed.

Lemma convert_time_handler_invalid_source db srv env src tm tgt :
  isValidTimezone db (JS.or_else src (localTz srv)) = false ->
  convert_time_handler db srv env src tm tgt =
  Resolved (text_result
    ("Error: Invalid source timezone specified ('" +:+ JS.or_else src (localTz srv) +:+
     "'). Please provide a valid IANA timezone name.")).
Proof.
  intros H. unfold convert_time_handler, convertTime. rewrite H.
  cbn [negb]. reflexivity.
Qed.

(** The message thrown for the target zone embeds the zone name, and the
    handler looks for "Invalid source timezone" in it first. *)
Lemma includes_target_message (tgt : string) :
  JS.includes ("Invalid target timezone: " +:+ tgt) "Invalid source timezone" =
  JS.includes tgt "Invalid source timezone".
Proof. reflexivity. Qed.

Lemma convert_time_handler_invalid_target db srv env src tm tgt :
  isValidTimezone db (JS.or_else src (localTz srv)) = true ->
  isValidTimezone db (JS.or_else tgt (localTz srv)) = false ->
  convert_time_handler db srv env src tm tgt =
  Resolved (text_result
    (if JS.includes (JS.or_else tgt (localTz srv)) "Invalid source timezone" then
       "Error: Invalid source timezone specified ('" +:+ JS.or_else src (localTz srv) +:+
       "'). Please provide a valid IANA timezone name."
     else
       "Error: Invalid target timezone specified ('" +:+ JS.or_else tgt (localTz srv) +:+
       "'). Please provide a valid IANA timezone name.")).
Proof.
  intros Hs Ht. unfold convert_time_handler, convertTime. rewrite Hs, Ht.
  cbn [negb]. rewrite includes_target_message.
  destruct (JS.includes (JS.or_else tgt _) _); reflexivity.
Qed.

Lemma convert_time_handler_invalid_time db srv env src tm tgt :
  isValidTimezone db (JS.or_else src (localTz srv)) = true ->
  isValidTimezone db (JS.or_else tgt (localTz srv)) = true ->
  fromFormat_HHmm db (sysZone env) (clock env) tm = None ->
  convert_time_handler db srv env src tm tgt =
  Resolved (text_result
    ("Error: Invalid time format specified ('" +:+ tm +:+
     "'). Please use 24-hour HH:MM format (e.g., '14:30').")).
Proof.
  intros Hs Ht Hp. unfold convert_time_handler, convertTime.
  rewrite Hs, Ht, Hp. reflexivity.
Qed.

(** C1: a [convert_time] call whose target zone is invalid and contains the
    words "Invalid source timezone" settles with a text that blames the
    (valid) source zone and does not name the offending target value. *)
Theorem convert_time_target_error_names_source :
  let tgt := "Invalid source timezone?" in
  let text := "Error: Invalid source timezone specified ('UTC'). Please provide a valid IANA timezone name." in
  isValidTimezone Sample.db "UTC" = true /\
  convertTime Sample.db Sample.env "UTC" "12:00" tgt =
    Thrown "Invalid target timezone: Invalid source timezone?" /\
  convert_time_handler Sample.db (buildMcpServer Sample.env) Sample.env
    (Some "UTC") "12:00" (Some tgt) = Resolved (text_result text) /\
  JS.includes text tgt = false.
Proof. repeat split; vm_compute; reflexivity. Qed.

(* ---------------------------------------------------------------------- *)
(** *** Which time strings [convertTime] accepts *)
(* ---------------------------------------------------------------------- *)

Lemma is_digit_value (c : ascii) :
  JS.is_digit c = true ->
  0 <= digit_value c <= 9 /\ c = JS.digit_char (digit_value c).
Proof.
  destruct c as [[] [] [] [] [] [] [] []]; vm_compute;
    first [ discriminate | intros _; split; [split; discriminate | reflexivity] ].
Qed.

Lemma match_HHmm_none (s : string) :
  match_HHmm s = None -> Spec.strict_HHMM s = false /\ s <> "24:00"%string.
Proof.
  intros H. split.
  - destruct s as [|a [|b [|sep [|c [|d [|e s]]]]]]; try reflexivity.
    cbn [match_HHmm] in H. cbn [Spec.strict_HHMM].
    destruct (JS.is_digit a && JS.is_digit b && Ascii.eqb sep ":" &&
              JS.is_digit c && JS.is_digit d); [discriminate | reflexivity].
  - intros ->. discriminate H.
Qed.

Lemma match_HHmm_some (s : string) (h m : Z) :
  match_HHmm s = Some (h, m) ->
  Spec.strict_HHMM s = (h <=? 23) && (m <=? 59) /\
  0 <= h /\ 0 <= m /\
  (s = "24:00"%string <-> h = 24 /\ m = 0).
Proof.
  destruct s as [|a [|b [|sep [|c [|d [|e s]]]]]]; try discriminate.
  cbn [match_HHmm Spec.strict_HHMM].
  destruct (JS.is_digit a) eqn:Ha; [|discriminate].
  destruct (JS.is_digit b) eqn:Hb; [|discriminate].
  destruct (Ascii.eqb sep ":") eqn:Hsep; [|discriminate].
  destruct (JS.is_digit c) eqn:Hc; [|discriminate].
  destruct (JS.is_digit d) eqn:Hd; [|discriminate].
  cbn [andb]. intros [= <- <-].
  apply is_digit_value in Ha as [Ra Ea], Hb as [Rb Eb], Hc as [Rc Ec], Hd as [Rd Ed].
  apply Ascii.eqb_eq in Hsep. subst sep.
  split; [reflexivity|]. split; [lia|]. split; [lia|]. split.
  - intros [= -> -> -> ->]. split; reflexivity.
  - intros [H1 H2].
    assert (digit_value a = 2) as Va by lia.
    assert (digit_value b = 4) as Vb by lia.
    assert (digit_value c = 0) as Vc by lia.
    assert (digit_value d = 0) as Vd by lia.
    rewrite Ea, Eb, Ec, Ed, Va, Vb, Vc, Vd. reflexivity.
Qed.

(** A time string is parsed when it has the strict shape or is "24:00". *)
Lemma fromFormat_HHmm_accepts db sys clk (s : string) :
  (Spec.strict_HHMM s || String.eqb s "24:00" = true ->
   exists dt, fromFormat_HHmm db sys clk s = Some dt) /\
  (Spec.strict_HHMM s || String.eqb s "24:00" = false ->
   fromFormat_HHmm db sys clk s = None).
Proof.
  unfold fromFormat_HHmm.
  destruct (match_HHmm s) as [[h m]|] eqn:Hm.
  - apply match_HHmm_some in Hm as (Hstrict & Hh & Hmin & H24).
    rewrite Hstrict. unfold valid_time_data.
    destruct (String.eqb_spec s "24:00") as [E|E].
    + apply H24 in E as [-> ->]. split; [|discriminate].
      intros _. cbn. destruct (fixOffset _ _ _ _); eauto.
    + assert (~ (h = 24 /\ m = 0)) as N by (intros X; apply E, H24, X).
      rewrite orb_false_r.
      destruct (h <=? 23) eqn:L1; destruct (m <=? 59) eqn:L2; cbn [andb];
        (split; [try discriminate | try discriminate]).
      * intros _.
        replace ((0 <=? h) && true || (h =? 24) && (m =? 0)) with true
          by (symmetry; apply orb_true_iff; left; apply andb_true_iff; split; [lia|reflexivity]).
        replace (0 <=? m) with true by lia. cbn.
        destruct (fixOffset _ _ _ _); eauto.
      * intros _. rewrite !andb_false_r. reflexivity.
      * intros _.
        replace (0 <=? h) with true by lia. cbn [andb orb].
        destruct (h =? 24) eqn:E24; destruct (m =? 0) eqn:E0; cbn; try reflexivity.
        exfalso; apply N; lia.
      * intros _. rewrite !andb_false_r. reflexivity.
  - apply match_HHmm_none in Hm as [-> Hne].
    apply String.eqb_neq in Hne. rewrite Hne. split; [discriminate | reflexivity].
Qed.

(** C3 (as the code has it): with valid zones, [convertTime] throws the
    time-format error, whose text names the expected HH:MM pattern, for
    every string that is neither of the strict shape (two digits, colon,
    two digits, hour 00-23, minute 00-59) nor the string "24:00"; every
    string of the strict shape, and "24:00", is accepted. *)
Theorem convertTime_time_format (db : ZoneDb) (env : Env) (src s tgt : string) :
  isValidTimezone db src = true ->
  isValidTimezone db tgt = true ->
  (Spec.strict_HHMM s || String.eqb s "24:00" = false ->
   convertTime db env src s tgt =
     Thrown "Invalid time format. Expected HH:MM [24-hour format]") /\
  (Spec.strict_HHMM s || String.eqb s "24:00" = true ->
   exists r, convertTime db env src s tgt = Returned r).
Proof.
  intros Hs Ht. unfold convertTime. rewrite Hs, Ht. cbn [negb].
  destruct (fromFormat_HHmm_accepts db (sysZone env) (clock env) s) as [Hyes Hno].
  split; intros H.
  - rewrite (Hno H). reflexivity.
  - destruct (Hyes H) as [dt ->]. eauto.
Qed.

Lemma convertTime_time_format_witness :
  convertTime Sample.db Sample.env "UTC" "9:30" "Asia/Tokyo" =
    Thrown "Invalid time format. Expected HH:MM [24-hour format]" /\
  convertTime Sample.db Sample.env "UTC" "25:00" "Asia/Tokyo" =
    Thrown "Invalid time format. Expected HH:MM [24-hour format]" /\
  exists r, convertTime Sample.db Sample.env "UTC" "23:59" "Asia/Tokyo" = Returned r.
Proof.
  split; [|split].
  - apply (proj1 (convertTime_time_format Sample.db Sample.env "UTC" "9:30" "Asia/Tokyo"
                    eq_refl eq_refl)). reflexivity.
  - apply (proj1 (convertTime_time_format Sample.db Sample.env "UTC" "25:00" "Asia/Tokyo"
                    eq_refl eq_refl)). reflexivity.
  - apply (proj2 (convertTime_time_format Sample.db Sample.env "UTC" "23:59" "Asia/Tokyo"
                    eq_refl eq_refl)). reflexivity.
Defined.

(** C3 as stated fails at "24:00": the hour is outside 00-23, yet the call
    returns a result. *)
Lemma convertTime_accepts_24_00 :
  Spec.strict_HHMM "24:00" = false /\
  convertTime Sample.db Sample.env "UTC" "24:00" "Asia/Tokyo" =
  Returned {|
    source := {| timezone := "UTC"; datetime := "2024-07-01T00:00:00Z" |};
    target := {| timezone := "Asia/Tokyo"; datetime := "2024-07-01T09:00:00+09:00" |};
    time_difference := "+9h" |}.
Proof. split; vm_compute; reflexivity. Qed.

(** The tool schema lets through every string the parser accepts. *)
Lemma time_schema_covers (s : string) :
  Spec.strict_HHMM s || String.eqb s "24:00" = true -> time_schema s = true.
Proof.
  destruct (String.eqb_spec s "24:00") as [->|_]; [reflexivity|].
  rewrite orb_false_r.
  destruct s as [|a [|b [|sep [|c [|d [|e s]]]]]]; try discriminate.
  cbn [Spec.strict_HHMM time_schema]. intros H.
  apply andb_true_iff in H as [H _]. apply andb_true_iff in H as [H _]. exact H.
Qed.

(* ---------------------------------------------------------------------- *)
(** *** Defaulting of the zone arguments *)
(* ---------------------------------------------------------------------- *)

(** C9: in both tools an empty-string zone argument is treated as an
    absent one and stands for the instance's default zone [localTz].  The
    handlers settle alike for [""] and for no argument; and when the
    default zone is valid, the empty string is not what reaches the time
    engine: [get_current_time] answers with the engine's result for the
    default zone, and [convert_time], given an accepted time and a valid
    zone on the other side, answers with the engine's conversion from
    (or to) the default zone. *)
Theorem empty_timezone_is_absent (db : ZoneDb) (srv : McpServer) (env : Env) :
  (get_current_time_handler db srv env (Some "") =
     get_current_time_handler db srv env None /\
   forall (tm : string) (other : option string),
     convert_time_handler db srv env (Some "") tm other =
       convert_time_handler db srv env None tm other /\
     convert_time_handler db srv env other tm (Some "") =
       convert_time_handler db srv env other tm None) /\
  (isValidTimezone db (localTz srv) = true ->
   (exists r : TimeResult,
      getCurrentTime db env (localTz srv) = Returned r /\
      timezone r = localTz srv /\
      get_current_time_handler db srv env (Some "") =
        Resolved (text_result (json_TimeResult "" r))) /\
   (forall tm z : string,
      Spec.strict_HHMM tm || String.eqb tm "24:00" = true ->
      isValidTimezone db z = true -> z <> ""%string ->
      (exists r : TimeConversionResult,
         convertTime db env (localTz srv) tm z = Returned r /\
         timezone (source r) = localTz srv /\ timezone (target r) = z /\
         convert_time_handler db srv env (Some "") tm (Some z) =
           Resolved (text_result (json_TimeConversionResult r))) /\
      (exists r : TimeConversionResult,
         convertTime db env z tm (localTz srv) = Returned r /\
         timezone (source r) = z /\ timezone (target r) = localTz srv /\
         convert_time_handler db srv env (Some z) tm (Some "") =
           Resolved (text_result (json_TimeConversionResult r))))).
Proof.
  split.
  - split; [reflexivity|]. intros tm other. split; reflexivity.
  - intros Hv. split.
    + unfold get_current_time_handler.
      change (JS.or_else (Some "") (localTz srv)) with (localTz srv).
      unfold getCurrentTime. rewrite Hv. cbn [negb].
      eexists. split; [reflexivity|]. split; reflexivity.
    + intros tm z Ha Hz Hne.
      destruct (fromFormat_HHmm_accepts db (sysZone env) (clock env) tm) as [Hyes _].
      destruct (Hyes Ha) as [parsed Hp].
      assert (JS.or_else (Some z) (localTz srv) = z) as Ez
        by (cbn; destruct (String.eqb_spec z ""); congruence).
      split.
      * unfold convert_time_handler. rewrite Ez.
        change (JS.or_else (Some "") (localTz srv)) with (localTz srv).
        unfold convertTime. rewrite Hv, Hz, Hp. cbn [negb].
        eexists. split; [reflexivity|]. repeat split.
      * unfold convert_time_handler. rewrite Ez.
        change (JS.or_else (Some "") (localTz srv)) with (localTz srv).
        unfold convertTime. rewrite Hv, Hz, Hp. cbn [negb].
        eexists. split; [reflexivity|]. repeat split.
Qed.

Lemma empty_timezone_is_absent_witness :
  (exists r : TimeResult,
     getCurrentTime Sample.db Sample.env_tokyo "Asia/Tokyo" = Returned r /\
     timezone r = "Asia/Tokyo"%string /\
     get_current_time_handler Sample.db (buildMcpServer Sample.env_tokyo)
       Sample.env_tokyo (Some "") =
       Resolved (text_result (json_TimeResult "" r))) /\
  (exists r : TimeConversionResult,
     convertTime Sample.db Sample.env_tokyo "Asia/Tokyo" "09:15" "Europe/London" =
       Returned r /\
     timezone (source r) = "Asia/Tokyo"%string /\
     timezone (target r) = "Europe/London"%string /\
     convert_time_handler Sample.db (buildMcpServer Sample.env_tokyo)
       Sample.env_tokyo (Some "") "09:15" (Some "Europe/London") =
       Resolved (text_result (json_TimeConversionResult r))).
Proof.
  split.
  - exact (proj1 (proj2 (empty_timezone_is_absent Sample.db
                           (buildMcpServer Sample.env_tokyo) Sample.env_tokyo)
                    eq_refl)).
  - apply (proj2 (proj2 (empty_timezone_is_absent Sample.db
                           (buildMcpServer Sample.env_tokyo) Sample.env_tokyo)
                    eq_refl) "09:15" "Europe/London");
      [reflexivity | reflexivity | discriminate].
Defined.

(* ---------------------------------------------------------------------- *)
(** *** Decimal printing *)
(* ---------------------------------------------------------------------- *)

Lemma append_assoc (a b c : string) : (a +:+ b) +:+ c = a +:+ (b +:+ c).
Proof. induction a as [|x a IH]; simpl; [reflexivity | now rewrite IH]. Qed.

Lemma append_nil_r (a : string) : a +:+ "" = a.
Proof. induction a as [|x a IH]; simpl; [reflexivity | now rewrite IH]. Qed.

Lemma length_append (a b : string) :
  String.length (a +:+ b) = (String.length a + String.length b)%nat.
Proof. induction a as [|x a IH]; simpl; [reflexivity | now rewrite IH]. Qed.

Lemma substring_all (b : string) : String.substring 0 (String.length b) b = b.
Proof. induction b as [|x b IH]; simpl; [reflexivity | now rewrite IH]. Qed.

Lemma substring_prefix (a b : string) :
  String.substring 0 (String.length a) (a +:+ b) = a.
Proof. induction a as [|x a IH]; simpl; [now destruct b | now rewrite IH]. Qed.

Lemma substring_suffix (a b : string) :
  String.substring (String.length a) (String.length b) (a +:+ b) = b.
Proof. induction a as [|x a IH]; simpl; [apply substring_all | exact IH]. Qed.

Lemma digits_from_acc (f : nat) : forall (n : Z) (acc : string),
  JS.digits_from f n acc = JS.digits_from f n "" +:+ acc.
Proof.
  induction f as [|f IH]; intros n acc; simpl; [reflexivity|].
  destruct (n <? 10); [reflexivity|].
  rewrite (IH _ (String _ acc)), (IH _ (String _ "")), append_assoc. reflexivity.
Qed.

Lemma pow2_succ (f : nat) : 2 ^ Z.of_nat (S f) = 2 * 2 ^ Z.of_nat f.
Proof. rewrite Nat2Z.inj_succ, Z.pow_succ_r; lia. Qed.

(** Any two amounts of fuel that cover the number print it alike. *)
Lemma digits_from_enough (f : nat) : forall (g : nat) (n : Z) (acc : string),
  0 <= n < 2 ^ Z.of_nat (S f) -> n < 2 ^ Z.of_nat (S g) ->
  JS.digits_from (S f) n acc = JS.digits_from (S g) n acc.
Proof.
  induction f as [|f IH]; intros g n acc Hf Hg.
  - cbn [JS.digits_from]. change (2 ^ Z.of_nat 1) with 2 in Hf.
    replace (n <? 10) with true by lia. reflexivity.
  - destruct g as [|g].
    + cbn [JS.digits_from]. change (2 ^ Z.of_nat 1) with 2 in Hg.
      replace (n <? 10) with true by lia. reflexivity.
    + cbn [JS.digits_from]. destruct (n <? 10) eqn:E; [reflexivity|].
      rewrite pow2_succ in Hf, Hg. apply Z.ltb_ge in E.
      change (JS.digits_from (S f) (n / 10) (String (JS.digit_char (n mod 10)) acc) =
              JS.digits_from (S g) (n / 10) (String (JS.digit_char (n mod 10)) acc)).
      apply IH.
      * split; [apply Z.div_pos; lia | apply Z.div_lt_upper_bound; lia].
      * apply Z.div_lt_upper_bound; lia.
Qed.

Lemma decimal_fuel (n : Z) (g : nat) :
  0 <= n < 2 ^ Z.of_nat (S g) -> JS.decimal n = JS.digits_from (S g) n "".
Proof.
  intros H. unfold JS.decimal. apply digits_from_enough; [|lia].
  split; [lia|].
  rewrite Nat2Z.inj_succ, Z2Nat.id by apply Z.log2_nonneg.
  destruct (Z.eq_dec n 0) as [->|Hn]; [reflexivity|].
  apply Z.log2_spec. lia.
Qed.

Lemma decimal_small (n : Z) :
  0 <= n < 10 -> JS.decimal n = String (JS.digit_char n) "".
Proof.
  intros H. unfold JS.decimal. cbn [JS.digits_from].
  replace (n <? 10) with true by lia.
  now rewrite Z.mod_small by lia.
Qed.

Lemma decimal_step (n : Z) :
  10 <= n ->
  JS.decimal n = JS.decimal (n / 10) +:+ String (JS.digit_char (n mod 10)) "".
Proof.
  intros H.
  assert (2 ^ Z.log2 n <= n < 2 ^ Z.succ (Z.log2 n)) as Hlog by (apply Z.log2_spec; lia).
  assert (3 <= Z.log2 n) as H3 by (apply (Z.log2_le_mono 8 n); lia).
  destruct (Z.to_nat (Z.log2 n)) as [|f] eqn:Ef; [lia|].
  assert (Z.log2 n = Z.of_nat (S f)) as El by lia.
  rewrite El in Hlog. rewrite <- Nat2Z.inj_succ in Hlog.
  rewrite (decimal_fuel n (S f)) by (split; [lia | apply Hlog]).
  cbn [JS.digits_from]. replace (n <? 10) with false by lia.
  change (JS.digits_from (S f) (n / 10) (String (JS.digit_char (n mod 10)) "") =
          JS.decimal (n / 10) +:+ String (JS.digit_char (n mod 10)) "").
  rewrite digits_from_acc. f_equal. symmetry. apply decimal_fuel.
  destruct Hlog as [_ Hup]. rewrite (pow2_succ (S f)) in Hup.
  assert (0 < 2 ^ Z.of_nat (S f)) by (apply Z.pow_pos_nonneg; lia).
  split; [apply Z.div_pos; lia | apply Z.div_lt_upper_bound; lia].
Qed.

Lemma decimal_nonempty (n : Z) : (1 <= String.length (JS.decimal n))%nat.
Proof.
  unfold JS.decimal. cbn [JS.digits_from].
  destruct (n <? 10); [simpl; lia|].
  rewrite digits_from_acc, length_append. simpl. lia.
Qed.

Ltac digit_cases d :=
  let H := fresh in
  assert (d = 0 \/ d = 1 \/ d = 2 \/ d = 3 \/ d = 4 \/
          d = 5 \/ d = 6 \/ d = 7 \/ d = 8 \/ d = 9) as H by lia;
  repeat (destruct H as [H|H]); rewrite H in *.

Lemma digit_char_is_digit (d : Z) :
  0 <= d <= 9 -> JS.is_digit (JS.digit_char d) = true.
Proof. intros H. digit_cases d; reflexivity. Qed.

Lemma digit_char_not (x : ascii) (d : Z) :
  JS.is_digit x = false -> 0 <= d <= 9 -> Ascii.eqb (JS.digit_char d) x = false.
Proof.
  intros Hx Hd. destruct (Ascii.eqb_spec (JS.digit_char d) x) as [<-|]; [|reflexivity].
  now rewrite digit_char_is_digit in Hx.
Qed.

Lemma lacks_append (x : ascii) (a b : string) :
  JS.lacks x (a +:+ b) = JS.lacks x a && JS.lacks x b.
Proof.
  induction a as [|c a IH]; [reflexivity|].
  cbn [String.append JS.lacks]. now rewrite IH, andb_assoc.
Qed.

Lemma digits_from_lacks (x : ascii) (f : nat) : forall (n : Z) (acc : string),
  JS.is_digit x = false -> 0 <= n -> JS.lacks x acc = true ->
  JS.lacks x (JS.digits_from f n acc) = true.
Proof.
  induction f as [|f IH]; intros n acc Hx Hn Hacc; cbn [JS.digits_from]; [exact Hacc|].
  assert (JS.lacks x (String (JS.digit_char (n mod 10)) acc) = true) as Hd.
  { cbn [JS.lacks]. rewrite digit_char_not, Hacc; [reflexivity | exact Hx |].
    pose proof (Z.mod_pos_bound n 10). lia. }
  destruct (n <? 10); [exact Hd|].
  apply IH; [exact Hx | apply Z.div_pos; lia | exact Hd].
Qed.

Lemma decimal_lacks (x : ascii) (n : Z) :
  JS.is_digit x = false -> 0 <= n -> JS.lacks x (JS.decimal n) = true.
Proof. intros Hx H. apply digits_from_lacks; [exact Hx | exact H | reflexivity]. Qed.

Lemma decimal_no_dot (n : Z) : 0 <= n -> JS.lacks "." (JS.decimal n) = true.
Proof. apply decimal_lacks. reflexivity. Qed.

Lemma replace_dot00_skip (p t : string) :
  JS.lacks "." p = true -> JS.replace_dot00 (p +:+ t) = p +:+ JS.replace_dot00 t.
Proof.
  induction p as [|c p IH]; intros H; [reflexivity|].
  cbn [JS.lacks] in H. apply andb_true_iff in H as [Hc Hp].
  apply negb_true_iff in Hc.
  cbn [String.append JS.replace_dot00 String.eqb]. rewrite Hc. cbn [andb].
  now rewrite IH.
Qed.

Lemma replace_dotd0_cons (c : ascii) (rest : string) :
  Ascii.eqb c "." = false ->
  JS.replace_dotd0 (String c rest) = String c (JS.replace_dotd0 rest).
Proof.
  intros Hc. cbn [JS.replace_dotd0].
  destruct rest as [|d [|z [|]]]; try reflexivity.
  now rewrite Hc.
Qed.

Lemma replace_dotd0_skip (p t : string) :
  JS.lacks "." p = true -> JS.replace_dotd0 (p +:+ t) = p +:+ JS.replace_dotd0 t.
Proof.
  induction p as [|c p IH]; intros H; [reflexivity|].
  cbn [JS.lacks] in H. apply andb_true_iff in H as [Hc Hp].
  apply negb_true_iff in Hc.
  cbn [String.append]. rewrite replace_dotd0_cons by exact Hc.
  now rewrite IH.
Qed.

(** The two replacements on the fractional part that [toFixed(2)] prints. *)
Lemma replace_fraction (d1 d2 : Z) :
  0 <= d1 <= 9 -> 0 <= d2 <= 9 -> (d1 =? 0) && (d2 =? 0) = false ->
  JS.replace_dotd0 (JS.replace_dot00
    (String "." (String (JS.digit_char d1) (String (JS.digit_char d2) "")))) =
  String "." (String (JS.digit_char d1)
    (if d2 =? 0 then "" else String (JS.digit_char d2) "")).
Proof.
  intros H1 H2 H. digit_cases d1; digit_cases d2;
    first [ discriminate H | reflexivity ].
Qed.

(** The integer and fraction part that [toFixed(2)] cuts out of the padded
    digits of [n]. *)
Lemma to_fixed2_parts (n : Z) :
  0 <= n ->
  let m := JS.pad_start0 (JS.decimal n) 3 in
  String.substring 0 (String.length m - 2) m = JS.decimal (n / 100) /\
  String.substring (String.length m - 2) 2 m =
    String (JS.digit_char (n / 10 mod 10)) (String (JS.digit_char (n mod 10)) "").
Proof.
  intros Hn.
  destruct (Z_lt_le_dec n 10) as [L10|G10].
  - rewrite decimal_small by lia.
    rewrite (Z.div_small n 100), (Z.div_small n 10), (Z.mod_small n 10) by lia.
    split; reflexivity.
  - rewrite (decimal_step n) by lia.
    destruct (Z_lt_le_dec n 100) as [L100|G100].
    + rewrite decimal_small by (split; [apply Z.div_pos | apply Z.div_lt_upper_bound]; lia).
      rewrite (Z.div_small n 100) by lia.
      rewrite (Z.mod_small (n / 10) 10)
        by (split; [apply Z.div_pos | apply Z.div_lt_upper_bound]; lia).
      split; reflexivity.
    + rewrite (decimal_step (n / 10)) by (apply Z.div_le_lower_bound; lia).
      rewrite Z.div_div by lia. change (10 * 10) with 100.
      rewrite append_assoc. cbn [String.append].
      set (A := JS.decimal (n / 100)).
      set (B := String (JS.digit_char (n / 10 mod 10)) (String (JS.digit_char (n mod 10)) "")).
      pose proof (decimal_nonempty (n / 100)) as HA. fold A in HA.
      assert (String.length (A +:+ B) = (String.length A + 2)%nat) as Hlen
        by (rewrite length_append; reflexivity).
      assert (JS.pad_start0 (A +:+ B) 3 = A +:+ B) as ->.
      { unfold JS.pad_start0. rewrite Hlen.
        replace (3 - (String.length A + 2))%nat with 0%nat by lia. reflexivity. }
      cbv zeta. rewrite Hlen.
      replace (String.length A + 2 - 2)%nat with (String.length A) by lia.
      split; [apply substring_prefix | apply (substring_suffix A B)].
Qed.

(* ---------------------------------------------------------------------- *)
(** *** The [time_difference] string *)
(* ---------------------------------------------------------------------- *)

Lemma hundredths_not_whole (a : Z) :
  0 <= a -> a mod 60 <> 0 ->
  let c := (100 * a + 30) / 60 in
  0 <= c /\ 0 <= c / 10 mod 10 <= 9 /\ 0 <= c mod 10 <= 9 /\
  (c / 10 mod 10 =? 0) && (c mod 10 =? 0) = false.
Proof.
  intros Ha Hm c. subst c.
  assert (0 <= (100 * a + 30) / 60) as Hc by (apply Z.div_pos; lia).
  repeat split; try (apply Z.mod_pos_bound; lia); try exact Hc.
  - pose proof (Z.mod_pos_bound ((100 * a + 30) / 60 / 10) 10). lia.
  - pose proof (Z.mod_pos_bound ((100 * a + 30) / 60) 10). lia.
  - apply andb_false_iff.
    destruct (Z.eqb_spec ((100 * a + 30) / 60 / 10 mod 10) 0) as [E1|]; [|now left].
    destruct (Z.eqb_spec ((100 * a + 30) / 60 mod 10) 0) as [E2|]; [|now right].
    exfalso. revert Hm E1 E2. clear Hc. Z.div_mod_to_equations. lia.
Qed.

Lemma timeDiffStr_spec (m : Z) : timeDiffStr m = Spec.time_difference m.
Proof.
  unfold timeDiffStr, Spec.time_difference.
  assert ((Z.abs m mod 60 =? 0) = (m mod 60 =? 0)) as ->.
  { destruct (Z.eqb_spec (m mod 60) 0) as [E|E];
      destruct (Z.eqb_spec (Z.abs m mod 60) 0) as [E'|E']; try reflexivity;
      exfalso; revert E E'; Z.div_mod_to_equations; lia. }
  destruct (Z.eqb_spec (m mod 60) 0) as [E|E].
  - (* whole hours *)
    unfold JS.number_to_string.
    destruct (Z.leb_spec 0 m) as [Hs|Hs].
    + replace (m / 60 <? 0) with false
        by (symmetry; apply Z.ltb_ge, Z.div_pos; lia).
      rewrite Z.abs_eq by lia. reflexivity.
    + assert (m / 60 < 0) by (apply Z.div_lt_upper_bound; lia).
      replace (m / 60 <? 0) with true by lia.
      replace (Z.abs m / 60) with (- (m / 60))
        by (revert E; Z.div_mod_to_equations; lia).
      reflexivity.
  - (* a fraction of an hour *)
    assert (Z.abs m mod 60 <> 0) as Ea
      by (revert E; Z.div_mod_to_equations; lia).
    destruct (hundredths_not_whole (Z.abs m) (Z.abs_nonneg m) Ea)
      as (Hc & Hd1 & Hd2 & Hnz).
    unfold JS.to_fixed2.
    replace ((200 * Z.abs m + 60) / (2 * 60)) with ((100 * Z.abs m + 30) / 60)
      by (replace (200 * Z.abs m + 60) with (2 * (100 * Z.abs m + 30)) by lia;
          now rewrite Z.div_mul_cancel_l by lia).
    set (c := (100 * Z.abs m + 30) / 60) in *.
    destruct (to_fixed2_parts c Hc) as [-> ->].
    set (A := JS.decimal (c / 100)).
    assert (JS.lacks "." A = true) as HA by (apply decimal_no_dot, Z.div_pos; lia).
    pose proof (replace_fraction _ _ Hd1 Hd2 Hnz) as HF.
    cbn [String.append].
    destruct (Z.leb_spec 0 m) as [Hs|Hs].
    + replace (m <? 0) with false by lia. cbn [String.append].
      rewrite (replace_dot00_skip A), (replace_dotd0_skip A) by exact HA.
      rewrite HF. rewrite append_assoc. reflexivity.
    + replace (m <? 0) with true by lia. cbn [String.append].
      change (String "-" (A +:+ ?t)) with (String "-" A +:+ t).
      rewrite (replace_dot00_skip (String "-" A)),
              (replace_dotd0_skip (String "-" A)) by (cbn [JS.lacks]; now rewrite HA).
      rewrite HF. rewrite append_assoc. reflexivity.
Qed.

(** C2: with valid zones and an accepted time string, [convertTime] returns
    and its [time_difference] is the target offset minus the source offset
    (in minutes), printed in hours with a sign, whole hours without a
    decimal point and a fraction rounded to two decimals with a trailing
    zero dropped; 0, 480, -300 and 345 minutes print as "+0h", "+8h", "-5h"
    and "+5.75h". *)
Theorem convertTime_time_difference :
  (forall (db : ZoneDb) (env : Env) (src tm tgt : string) (parsed : DateTime),
     isValidTimezone db src = true ->
     isValidTimezone db tgt = true ->
     fromFormat_HHmm db (sysZone env) (clock env) tm = Some parsed ->
     exists r,
       convertTime db env src tm tgt = Returned r /\
       time_difference r =
         Spec.time_difference
           (o (targetDt db env src tgt parsed) - o (sourceDt db env src parsed))) /\
  timeDiffStr 0 = "+0h" /\ timeDiffStr 480 = "+8h" /\
  timeDiffStr (-300) = "-5h" /\ timeDiffStr 345 = "+5.75h" /\
  timeDiffStr 330 = "+5.5h" /\ timeDiffStr (-345) = "-5.75h".
Proof.
  split; [|repeat split; reflexivity].
  intros db env src tm tgt parsed Hs Ht Hp.
  unfold convertTime. rewrite Hs, Ht, Hp. cbn [negb].
  eexists. split; [reflexivity|]. cbn [time_difference].
  apply timeDiffStr_spec.
Qed.

Lemma convertTime_time_difference_witness :
  exists r,
    convertTime Sample.db Sample.env "Asia/Tokyo" "14:30" "Asia/Kathmandu" = Returned r /\
    time_difference r = Spec.time_difference (345 - 540).
Proof.
  exact (proj1 convertTime_time_difference Sample.db Sample.env
           "Asia/Tokyo" "14:30" "Asia/Kathmandu"
           {| ts := 1719844200000; zone := SystemZone "UTC"; o := 0 |}
           eq_refl eq_refl eq_refl).
Defined.

(* ---------------------------------------------------------------------- *)
(** *** [getCurrentTime] *)
(* ---------------------------------------------------------------------- *)

(** [getCurrentTime] throws exactly for the names the validator refuses,
    and otherwise returns a result for the zone it was given. *)
Lemma getCurrentTime_outcome (db : ZoneDb) (env : Env) (tz : string) :
  (isValidTimezone db tz = false ->
   getCurrentTime db env tz = Thrown ("Invalid timezone: " +:+ tz)) /\
  (isValidTimezone db tz = true ->
   exists r, getCurrentTime db env tz = Returned r /\ timezone r = tz).
Proof.
  unfold getCurrentTime. split; intros ->; cbn [negb]; [reflexivity|].
  eexists. split; reflexivity.
Qed.

(** The time part of the ISO string carries three fractional digits
    whenever the milliseconds of the instant are not zero. *)
Lemma toISOTime_fraction (dt : DateTime) :
  millisecond dt <> 0 ->
  exists rest,
    toISOTime dt true =
    padStart (hour dt) 2 +:+ ":" +:+ padStart (minute dt) 2 +:+ ":" +:+
    padStart (second dt) 2 +:+ "." +:+ padStart (millisecond dt) 3 +:+ rest.
Proof.
  intros H. unfold toISOTime.
  apply Z.eqb_neq in H. rewrite H. cbn [negb orb].
  eexists. rewrite !append_assoc. reflexivity.
Qed.

(** C5: at a clock reading with a non-zero millisecond part (here
    2024-07-01T12:34:56.789Z) the [datetime] that [getCurrentTime] returns
    for a valid zone carries fractional seconds. *)
Theorem getCurrentTime_keeps_milliseconds :
  isValidTimezone Sample.db "Asia/Tokyo" = true /\
  clock Sample.env = 1719837296789 /\
  getCurrentTime Sample.db Sample.env "Asia/Tokyo" =
  Returned {| timezone := "Asia/Tokyo";
              datetime := "2024-07-01T21:34:56.789+09:00" |}.
Proof. repeat split; vm_compute; reflexivity. Qed.

(* ---------------------------------------------------------------------- *)
(** *** Reading the wall clock off an ISO string *)
(* ---------------------------------------------------------------------- *)

Lemma repeat_char_lacks (x c : ascii) (k : nat) :
  Ascii.eqb c x = false -> JS.lacks x (JS.repeat_char c k) = true.
Proof. intros H. induction k as [|k IH]; cbn [JS.repeat_char JS.lacks]; [reflexivity | now rewrite H, IH]. Qed.

Lemma padStart_lacks (x : ascii) (n : Z) (k : nat) :
  JS.is_digit x = false -> Ascii.eqb "-" x = false ->
  JS.lacks x (padStart n k) = true.
Proof.
  intros Hx Hm.
  assert (forall v, 0 <= v -> JS.lacks x (JS.pad_start0 (JS.number_to_string v) k) = true) as Hpad.
  { intros v Hv. unfold JS.pad_start0, JS.number_to_string.
    replace (v <? 0) with false by lia.
    rewrite lacks_append, decimal_lacks, repeat_char_lacks; try reflexivity; try assumption.
    destruct (Ascii.eqb_spec "0" x) as [<-|]; [discriminate Hx | reflexivity]. }
  unfold padStart. destruct (Z.ltb_spec n 0).
  - cbn [String.append JS.lacks]. rewrite Hm, Hpad by lia. reflexivity.
  - apply Hpad. lia.
Qed.

Lemma toISODate_lacks_T (dt : DateTime) :
  JS.lacks "T" (toISODate dt) = true.
Proof.
  unfold toISODate. rewrite !lacks_append.
  rewrite !(padStart_lacks "T") by reflexivity.
  destruct (((9999 <? year dt) || (year dt <? 0)) && (0 <=? year dt)); reflexivity.
Qed.

Lemma after_T_skip (d rest : string) :
  JS.lacks "T" d = true -> Spec.after_T (d +:+ "T" +:+ rest) = rest.
Proof.
  induction d as [|c d IH]; intros H; [reflexivity|].
  cbn [JS.lacks] in H. apply andb_true_iff in H as [Hc Hd].
  apply negb_true_iff in Hc.
  cbn [String.append Spec.after_T]. rewrite Hc. now apply IH.
Qed.

(** Two-digit fields. *)
Lemma padStart2 (n : Z) :
  0 <= n < 100 ->
  padStart n 2 = String (JS.digit_char (n / 10)) (String (JS.digit_char (n mod 10)) "").
Proof.
  intros H. unfold padStart, JS.number_to_string.
  replace (n <? 0) with false by lia.
  destruct (Z_lt_le_dec n 10).
  - rewrite decimal_small, Z.div_small, Z.mod_small by lia. reflexivity.
  - rewrite decimal_step by lia.
    rewrite decimal_small by (split; [apply Z.div_pos | apply Z.div_lt_upper_bound]; lia).
    reflexivity.
Qed.

Lemma hour_range (dt : DateTime) : 0 <= hour dt < 24.
Proof. apply Z.mod_pos_bound. lia. Qed.

Lemma minute_range (dt : DateTime) : 0 <= minute dt < 60.
Proof. apply Z.mod_pos_bound. lia. Qed.

Lemma wall_clock_toISO (dt : DateTime) :
  Spec.wall_clock (toISO dt) = padStart (hour dt) 2 +:+ ":" +:+ padStart (minute dt) 2.
Proof.
  unfold Spec.wall_clock, toISO.
  rewrite after_T_skip by apply toISODate_lacks_T.
  unfold toISOTime.
  pose proof (hour_range dt). pose proof (minute_range dt).
  rewrite (padStart2 (hour dt)), (padStart2 (minute dt)) by lia.
  reflexivity.
Qed.

Lemma digit_value_char (d : Z) :
  0 <= d <= 9 -> digit_value (JS.digit_char d) = d.
Proof. intros H. digit_cases d; reflexivity. Qed.


(** A string the parser matches is the two-digit print of its fields. *)
Lemma match_HHmm_print (s : string) (h m : Z) :
  match_HHmm s = Some (h, m) ->
  0 <= h < 100 /\ 0 <= m < 100 /\ s = padStart h 2 +:+ ":" +:+ padStart m 2.
Proof.
  destruct s as [|a [|b [|sep [|c [|d [|e s]]]]]]; try discriminate.
  cbn [match_HHmm].
  destruct (JS.is_digit a) eqn:Ha; [|discriminate].
  destruct (JS.is_digit b) eqn:Hb; [|discriminate].
  destruct (Ascii.eqb sep ":") eqn:Hsep; [|discriminate].
  destruct (JS.is_digit c) eqn:Hc; [|discriminate].
  destruct (JS.is_digit d) eqn:Hd; [|discriminate].
  cbn [andb]. intros [= <- <-].
  apply is_digit_value in Ha as [Ra Ea], Hb as [Rb Eb], Hc as [Rc Ec], Hd as [Rd Ed].
  apply Ascii.eqb_eq in Hsep. subst sep.
  split; [lia|]. split; [lia|].
  rewrite !padStart2 by lia.
  replace ((10 * digit_value a + digit_value b) / 10) with (digit_value a)
    by (Z.div_mod_to_equations; lia).
  replace ((10 * digit_value a + digit_value b) mod 10) with (digit_value b)
    by (Z.div_mod_to_equations; lia).
  replace ((10 * digit_value c + digit_value d) / 10) with (digit_value c)
    by (Z.div_mod_to_equations; lia).
  replace ((10 * digit_value c + digit_value d) mod 10) with (digit_value d)
    by (Z.div_mod_to_equations; lia).
  rewrite <- Ea, <- Eb, <- Ec, <- Ed. reflexivity.
Qed.

(* ---------------------------------------------------------------------- *)
(** *** Conversion at steady offsets *)
(* ---------------------------------------------------------------------- *)

Lemma zone_equals_normalize (name : string) (z : Zone) :
  zone_equals (normalize_zone name) z = true -> normalize_zone name = z.
Proof.
  unfold normalize_zone.
  destruct (_ || _); destruct z; cbn; try discriminate; [reflexivity|].
  intros H. apply String.eqb_eq in H. now subst.
Qed.

Lemma setZone_ts (db : ZoneDb) (dt : DateTime) (name : string) :
  ts (setZone db dt name) = ts dt.
Proof. unfold setZone. destruct (zone_equals _ _); reflexivity. Qed.

Lemma setZone_now (db : ZoneDb) (sys : string) (clk : Z) (name : string) :
  setZone db (now db sys clk) name =
  {| ts := clk; zone := normalize_zone name; o := offset db (normalize_zone name) clk |}.
Proof.
  unfold setZone, now. cbn [zone ts].
  assert (zone_equals (normalize_zone name) (SystemZone sys) = false) as ->
    by (unfold normalize_zone; destruct (_ || _); reflexivity).
  reflexivity.
Qed.

Lemma fixOffset_steady (db : ZoneDb) (L c : Z) (z : Zone) :
  offset db z (L - c * 60000) = c -> fixOffset db L c z = (L - c * 60000, c).
Proof. intros H. unfold fixOffset. rewrite H, Z.eqb_refl. reflexivity. Qed.

Lemma local_fields (d h m : Z) :
  0 <= h < 24 -> 0 <= m < 60 ->
  objToLocalTS d h m 0 0 / 86400000 = d /\
  (objToLocalTS d h m 0 0 / 3600000) mod 24 = h /\
  (objToLocalTS d h m 0 0 / 60000) mod 60 = m.
Proof.
  intros Hh Hm. unfold objToLocalTS.
  repeat split; Z.div_mod_to_equations; lia.
Qed.

(** The instant a wall-clock time of today denotes is less than a day away
    from the clock reading that fixed "today". *)
Lemma anchor_near (clk c h m : Z) :
  0 <= h < 24 -> 0 <= m < 60 ->
  Z.abs (objToLocalTS ((clk + c * 60000) / 86400000) h m 0 0 - c * 60000 - clk) < 86400000.
Proof.
  intros Hh Hm. unfold objToLocalTS. Z.div_mod_to_equations. lia.
Qed.

Lemma steady_at_clock db env z c :
  Spec.steady db env z c -> offset db z (clock env) = c /\ offset db z (clock' env) = c.
Proof.
  intros H. split; apply H; [left | right]; rewrite Z.sub_diag; reflexivity.
Qed.

Lemma fromFormat_steady (db : ZoneDb) (env : Env) (s : string) (h m cS : Z) :
  match_HHmm s = Some (h, m) -> 0 <= h < 24 -> 0 <= m < 60 ->
  Spec.steady db env (SystemZone (sysZone env)) cS ->
  exists parsed,
    fromFormat_HHmm db (sysZone env) (clock env) s = Some parsed /\
    hour parsed = h /\ minute parsed = m.
Proof.
  intros Hs Hh Hm Hst. unfold fromFormat_HHmm. rewrite Hs.
  assert (valid_time_data h m = true) as ->.
  { unfold valid_time_data.
    replace (0 <=? h) with true by lia. replace (h <=? 23) with true by lia.
    replace (0 <=? m) with true by lia. replace (m <=? 59) with true by lia.
    reflexivity. }
  destruct (steady_at_clock _ _ _ _ Hst) as [Hc _]. rewrite Hc.
  rewrite fixOffset_steady
    by (apply Hst; left; apply anchor_near; assumption).
  eexists. split; [reflexivity|].
  unfold hour, minute, local_ms. cbn [ts o].
  replace (objToLocalTS ((clock env + cS * 60000) / 86400000) h m 0 0
           - cS * 60000 + cS * 60000)
    with (objToLocalTS ((clock env + cS * 60000) / 86400000) h m 0 0) by lia.
  split; apply local_fields; assumption.
Qed.

Lemma sourceDt_steady (db : ZoneDb) (env : Env) (a : string) (parsed : DateTime) (cA : Z) :
  Spec.steady db env (normalize_zone a) cA ->
  sourceDt db env a parsed =
  {| ts := objToLocalTS ((clock' env + cA * 60000) / 86400000)
             (hour parsed) (minute parsed) 0 0 - cA * 60000;
     zone := normalize_zone a;
     o := cA |}.
Proof.
  intros Hst. unfold sourceDt. rewrite setZone_now.
  destruct (steady_at_clock _ _ _ _ Hst) as [_ Hc]. rewrite Hc.
  unfold set_time, local_day, local_ms. cbn [ts o zone].
  pose proof (hour_range parsed) as Hh. pose proof (minute_range parsed) as Hm.
  rewrite fixOffset_steady
    by (apply Hst; right; apply anchor_near; assumption).
  destruct (Z.eqb_spec
    (objToLocalTS ((clock' env + cA * 60000) / 86400000)
       (hour parsed) (minute parsed) 0 0 - cA * 60000) (clock' env)) as [E|E].
  - rewrite E. reflexivity.
  - f_equal. apply Hst. right. apply anchor_near; assumption.
Qed.

Lemma targetDt_steady (db : ZoneDb) (env : Env) (a b : string) (parsed : DateTime) (cA cB : Z) :
  Spec.steady db env (normalize_zone a) cA ->
  Spec.steady db env (normalize_zone b) cB ->
  ts (targetDt db env a b parsed) = ts (sourceDt db env a parsed) /\
  o (targetDt db env a b parsed) = cB.
Proof.
  intros HA HB. unfold targetDt. split; [apply setZone_ts|].
  rewrite (sourceDt_steady db env a parsed cA HA).
  unfold setZone. cbn [zone ts o].
  destruct (zone_equals (normalize_zone b) (normalize_zone a)) eqn:E.
  - apply zone_equals_normalize in E. cbn [o].
    destruct (steady_at_clock _ _ _ _ HA) as [<- _].
    destruct (steady_at_clock _ _ _ _ HB) as [<- _].
    now rewrite E.
  - cbn [o]. apply HB. right.
    apply anchor_near; [apply hour_range | apply minute_range].
Qed.


Lemma strict_HHMM_fields (s : string) :
  Spec.strict_HHMM s = true ->
  exists h m, match_HHmm s = Some (h, m) /\ 0 <= h < 24 /\ 0 <= m < 60.
Proof.
  intros H. destruct (match_HHmm s) as [[h m]|] eqn:E.
  - apply match_HHmm_some in E as (Hs & Hh & Hm & _).
    rewrite Hs in H. apply andb_true_iff in H as [H1 H2].
    apply Z.leb_le in H1, H2.
    exists h, m. split; [reflexivity | lia].
  - apply match_HHmm_none in E as [E _]. congruence.
Qed.






(* ---------------------------------------------------------------------- *)
(** *** The transport registries *)
(* ---------------------------------------------------------------------- *)

Import Sessions.

Lemma keys_match_alloc (h : gmap nat Transport) (table : gmap string nat)
    (ref : nat) (t : Transport) :
  h !! ref = None -> keys_match h table -> keys_match (<[ref := t]> h) table.
Proof.
  intros Hfresh Hk k r Hr. destruct (Hk k r Hr) as (t0 & Ht0 & Hid).
  exists t0. split; [|exact Hid].
  rewrite lookup_insert_ne; [exact Ht0|]. congruence.
Qed.

Lemma keys_match_delete (h : gmap nat Transport) (table : gmap string nat) (id : string) :
  keys_match h table -> keys_match h (delete id table).
Proof.
  intros Hk k r Hr. apply lookup_delete_Some in Hr as [_ Hr]. exact (Hk k r Hr).
Qed.

(** Giving an uninitialised transport its id disturbs no entry. *)
Lemma keys_match_set_id (h : gmap nat Transport) (table : gmap string nat)
    (ref : nat) (t : Transport) (id : string) :
  h !! ref = Some t -> sessionId t = None ->
  keys_match h table -> keys_match (<[ref := set_sessionId t id]> h) table.
Proof.
  intros Ht Hnone Hk k r Hr. destruct (Hk k r Hr) as (t0 & Ht0 & Hid).
  destruct (decide (r = ref)) as [->|Hne].
  - rewrite Ht in Ht0. injection Ht0 as <-. congruence.
  - exists t0. rewrite lookup_insert_ne by congruence. split; assumption.
Qed.

Lemma keys_match_register (h : gmap nat Transport) (table : gmap string nat)
    (ref : nat) (t : Transport) (id : string) :
  h !! ref = Some t -> sessionId t = Some id ->
  keys_match h table -> keys_match h (<[id := ref]> table).
Proof.
  intros Ht Hid Hk k r Hr.
  destruct (decide (id = k)) as [<-|Hne].
  - rewrite lookup_insert_eq in Hr. injection Hr as <-. eauto.
  - rewrite lookup_insert_ne in Hr by exact Hne. exact (Hk k r Hr).
Qed.

Lemma refs_bounded_fresh (st : State) : refs_bounded st -> heap st !! next_ref st = None.
Proof.
  intros Hb. destruct (heap st !! next_ref st) as [t|] eqn:E; [|reflexivity].
  apply Hb in E. lia.
Qed.

Lemma key_integrity_init : key_integrity init /\ refs_bounded init.
Proof.
  repeat split; intros k r H; cbn in H; rewrite lookup_empty in H; discriminate.
Qed.

Lemma alloc_preserves (st : State) (t : Transport) :
  key_integrity st /\ refs_bounded st ->
  key_integrity (alloc st t) /\ refs_bounded (alloc st t).
Proof.
  intros [[Hs He] Hb]. pose proof (refs_bounded_fresh st Hb) as Hf.
  unfold key_integrity, alloc. cbn [heap streamableTransports sseTransports next_ref].
  repeat split; try (apply keys_match_alloc; assumption).
  intros r t0 Hr. cbn [heap next_ref] in *.
  destruct (decide (next_ref st = r)) as [<-|Hne]; [lia|].
  rewrite lookup_insert_ne in Hr by exact Hne. apply Hb in Hr. lia.
Qed.

(** Every event keeps the registries' keys in step with the transports. *)
Lemma step_preserves (env : Env) (st : State) (e : Event) :
  key_integrity st /\ refs_bounded st ->
  key_integrity (fst (step env st e)) /\ refs_bounded (fst (step env st e)).
Proof.
  intros Hinv. pose proof Hinv as [[Hs He] Hb].
  destruct e as [sid isInit | ref id | ref | id | ref | sid]; cbn [step fst].
  - (* /mcp *)
    unfold mcp_route.
    destruct (JS.truthy sid && JS.truthy_prop _).
    + destruct (match sid with Some _ => _ | None => _ end); exact Hinv.
    + destruct (negb (JS.truthy sid) && isInit); [|exact Hinv].
      unfold build_logged. cbn [fst]. apply alloc_preserves. exact Hinv.
  - (* onsessioninitialized *)
    unfold session_initialized.
    destruct (heap st !! ref) as [t|] eqn:Ht; [|exact Hinv].
    destruct (kind t) eqn:Hk; [|exact Hinv].
    destruct (sessionId t) eqn:Hid; [exact Hinv|].
    unfold key_integrity. cbn [heap streamableTransports sseTransports next_ref].
    assert (<[ref := set_sessionId t id]> (heap st) !! ref = Some (set_sessionId t id))
      as Hnew by apply lookup_insert_eq.
    repeat split.
    + apply (keys_match_register _ _ ref (set_sessionId t id) id); [exact Hnew | reflexivity |].
      apply keys_match_set_id; assumption.
    + apply keys_match_set_id; assumption.
    + intros r t0 Hr. cbn [heap next_ref] in *.
      destruct (decide (ref = r)) as [<-|Hne]; [exact (Hb ref t Ht)|].
      rewrite lookup_insert_ne in Hr by exact Hne. exact (Hb r t0 Hr).
  - (* onclose *)
    unfold streamable_closed.
    destruct (heap st !! ref) as [t|]; [|exact Hinv].
    destruct (kind t); [|exact Hinv].
    destruct (JS.truthy (sessionId t)); [|exact Hinv].
    destruct (sessionId t) as [id|]; [|exact Hinv].
    repeat split; try assumption. apply keys_match_delete, Hs.
  - (* /sse *)
    pose proof (refs_bounded_fresh st Hb) as Hf.
    unfold sse_route, build_logged, key_integrity.
    cbn [fst heap streamableTransports sseTransports next_ref].
    set (t := {| kind := Sse; sessionId := Some id; server := buildMcpServer env |}).
    repeat split.
    + apply keys_match_alloc; assumption.
    + apply (keys_match_register _ _ (next_ref st) t id);
        [apply lookup_insert_eq | reflexivity | apply keys_match_alloc; assumption].
    + intros r t0 Hr. cbn [heap next_ref] in *.
      destruct (decide (next_ref st = r)) as [<-|Hne]; [lia|].
      rewrite lookup_insert_ne in Hr by exact Hne. apply Hb in Hr. lia.
  - (* close of an SSE response *)
    unfold sse_closed.
    destruct (heap st !! ref) as [t|]; [|exact Hinv].
    destruct (kind t); [exact Hinv|].
    destruct (sessionId t) as [id|]; [|exact Hinv].
    repeat split; try assumption. apply keys_match_delete, He.
  - (* /messages *)
    unfold messages_route.
    destruct (negb _); [exact Hinv|].
    destruct (JS.get_prop _ _); exact Hinv.
Qed.

Lemma reachable_invariant (st : State) :
  reachable st -> key_integrity st /\ refs_bounded st.
Proof.
  induction 1 as [|env st e _ IH _]; [apply key_integrity_init | apply step_preserves, IH].
Qed.

Lemma reachable_run (st : State) (es : list (Env * Event)) :
  reachable st -> Forall (fun p => event_ok (snd p)) es -> reachable (run st es).
Proof.
  revert st. induction es as [|[env e] es IH]; intros st Hr Hok; [exact Hr|].
  cbn [run]. apply Forall_cons in Hok as [Hok1 Hok]. apply IH; [|exact Hok].
  apply reachable_step; assumption.
Qed.

(** C10: in every reachable state each key of either registry maps to a
    transport whose own session id is that key; every event preserves
    this; a session is registered under the id of its own transport; a
    close removes no key other than the closing transport's own, and
    changes nothing when that key is already gone. *)
Theorem registries_key_integrity :
  (forall st, reachable st -> key_integrity st) /\
  (forall env st e,
     key_integrity st /\ refs_bounded st -> key_integrity (fst (step env st e))) /\
  (forall st ref t id,
     heap st !! ref = Some t -> kind t = Streamable -> sessionId t = None ->
     streamableTransports (session_initialized st ref id) !! id = Some ref /\
     sessionId <$> heap (session_initialized st ref id) !! ref = Some (Some id)) /\
  (forall env st id,
     sseTransports (fst (sse_route env st id)) !! id = Some (next_ref st) /\
     sessionId <$> heap (fst (sse_route env st id)) !! next_ref st = Some (Some id)) /\
  (forall st ref t k,
     heap st !! ref = Some t -> sessionId t <> Some k ->
     streamableTransports (streamable_closed st ref) !! k = streamableTransports st !! k /\
     sseTransports (sse_closed st ref) !! k = sseTransports st !! k) /\
  (forall st ref t id,
     heap st !! ref = Some t -> sessionId t = Some id ->
     (streamableTransports st !! id = None -> streamable_closed st ref = st) /\
     (sseTransports st !! id = None -> sse_closed st ref = st)).
Proof.
  split; [intros st H; apply (reachable_invariant st H)|].
  split; [intros env st e H; apply (step_preserves env st e H)|].
  split; [|split; [|split]].
  - intros st ref t id Ht Hk Hid. unfold session_initialized.
    rewrite Ht, Hk, Hid. cbn [streamableTransports heap].
    rewrite !lookup_insert_eq. split; reflexivity.
  - intros env st id. unfold sse_route, build_logged. cbn [fst sseTransports heap].
    rewrite !lookup_insert_eq. split; reflexivity.
  - intros st ref t k Ht Hne. unfold streamable_closed, sse_closed. rewrite Ht.
    split.
    + destruct (kind t); [|reflexivity].
      destruct (JS.truthy (sessionId t)); [|reflexivity].
      destruct (sessionId t) as [id|]; [|reflexivity].
      cbn [streamableTransports]. apply lookup_delete_ne. congruence.
    + destruct (kind t); [reflexivity|].
      destruct (sessionId t) as [id|]; [|reflexivity].
      cbn [sseTransports]. apply lookup_delete_ne. congruence.
  - intros st ref t id Ht Hid. unfold streamable_closed, sse_closed. rewrite Ht, Hid.
    split; intros Habs.
    + destruct (kind t); [|reflexivity].
      destruct (JS.truthy (Some id)); [|reflexivity].
      rewrite delete_id by exact Habs. destruct st; reflexivity.
    + destruct (kind t); [reflexivity|].
      rewrite delete_id by exact Habs. destruct st; reflexivity.
Qed.

Lemma registries_key_integrity_witness :
  key_integrity
    (run init
       [ (Sample.env, SseRequest Sample.uuid1);
         (Sample.env, McpRequest None true);
         (Sample.env, SessionInitialized 1 Sample.uuid2);
         (Sample.env, SseClosed 0);
         (Sample.env, StreamableClosed 1) ]).
Proof.
  apply (proj1 registries_key_integrity).
  apply reachable_run; [apply reachable_init|].
  repeat (apply Forall_cons; split; [vm_compute; auto|]). apply Forall_nil_2.
Defined.

(* ---------------------------------------------------------------------- *)
(** *** The streamable endpoint *)
(* ---------------------------------------------------------------------- *)

(** A request that is not an initialize request, and whose session id
    header is absent, empty, or a name the registry lookup does not
    resolve, is answered with the fixed 400 body and changes nothing. *)
Lemma mcp_route_bad_request (env : Env) (st : State) (sid : option string) :
  match sid with
  | Some s => s = ""%string \/ JS.get_prop (streamableTransports st) s = JS.Undefined
  | None => True
  end ->
  mcp_route env st sid false =
  (st, JsonRpcError 400 (-32000) "Bad Request: invalid MCP handshake").
Proof.
  intros H. unfold mcp_route. destruct sid as [s|]; [|reflexivity].
  destruct H as [-> | ->]; [reflexivity|].
  cbn [JS.truthy_prop]. now rewrite !andb_false_r.
Qed.

(** A session id of a real session is never a property name of
    [Object.prototype]. *)
Lemma uuid_not_inherited (id : string) :
  is_uuid id = true -> id <> ""%string /\ id ∉ JS.object_prototype_keys.
Proof.
  intros H. split.
  - intros ->. discriminate H.
  - intros Hin. unfold JS.object_prototype_keys in Hin.
    repeat (apply elem_of_cons in Hin as [->|Hin]; [discriminate H|]).
    now apply elem_of_nil in Hin.
Qed.

(** C8: a request that carries the session id "constructor", which names
    no session, and is not an initialize request takes the reuse branch:
    the registry lookup finds the inherited [Object.prototype.constructor],
    and calling [handleRequest] on it throws; no 400 is sent. *)
Theorem mcp_request_inherited_key (env : Env) :
  streamableTransports init !! "constructor" = None /\
  step env init (McpRequest (Some "constructor") false) =
    (init, TypeError "transport.handleRequest is not a function").
Proof. split; reflexivity. Qed.

(* ---------------------------------------------------------------------- *)
(** *** The default zone of a server instance *)
(* ---------------------------------------------------------------------- *)

Lemma reads_match_snoc (st : State) (z : string) (h : gmap nat Transport)
    (t : Transport) :
  refs_bounded st -> reads_match st -> localTz (server t) = z ->
  h = <[next_ref st := t]> (heap st) ->
  (length (zone_reads st ++ [z]) = S (next_ref st))%nat /\
  forall (ref : nat) (t0 : Transport),
    h !! ref = Some t0 -> (zone_reads st ++ [z]) !! ref = Some (localTz (server t0)).
Proof.
  intros Hb [Hlen Hreads] Hz ->. split.
  - rewrite length_app. cbn [length]. lia.
  - intros ref t0 Hl. destruct (decide (next_ref st = ref)) as [<-|Hne].
    + rewrite lookup_insert_eq in Hl. injection Hl as <-.
      rewrite <- Hlen, Hz. apply list_lookup_middle. reflexivity.
    + rewrite lookup_insert_ne in Hl by exact Hne.
      rewrite lookup_app_l by (rewrite Hlen; exact (Hb ref t0 Hl)).
      exact (Hreads ref t0 Hl).
Qed.

(** One zone read per transport created, in creation order. *)
Lemma reads_match_step (env : Env) (st : State) (e : Event) :
  refs_bounded st -> reads_match st -> reads_match (fst (step env st e)).
Proof.
  intros Hb Hm. pose proof Hm as [Hlen Hreads].
  destruct e as [sid isInit | r id | r | id | r | sid]; cbn [step fst].
  - unfold mcp_route, build_logged.
    destruct (JS.truthy sid && JS.truthy_prop _).
    + destruct (match sid with Some _ => _ | None => _ end); exact Hm.
    + destruct (negb (JS.truthy sid) && isInit); [|exact Hm].
      apply (reads_match_snoc st (getLocalTimezone env) _
               {| kind := Streamable; sessionId := None; server := buildMcpServer env |});
        try assumption; reflexivity.
  - unfold session_initialized.
    destruct (heap st !! r) as [t|] eqn:Ht; [|exact Hm].
    destruct (kind t); [|exact Hm].
    destruct (sessionId t); [exact Hm|].
    split; [exact Hlen|]. cbn [heap zone_reads]. intros ref t0 Hl.
    destruct (decide (r = ref)) as [<-|Hne].
    + rewrite lookup_insert_eq in Hl. injection Hl as <-. exact (Hreads r t Ht).
    + rewrite lookup_insert_ne in Hl by exact Hne. exact (Hreads ref t0 Hl).
  - unfold streamable_closed.
    destruct (heap st !! r) as [t|]; [|exact Hm].
    destruct (kind t); [|exact Hm].
    destruct (JS.truthy (sessionId t)); [|exact Hm].
    destruct (sessionId t); exact Hm.
  - unfold sse_route, build_logged.
    apply (reads_match_snoc st (getLocalTimezone env) _
             {| kind := Sse; sessionId := Some id; server := buildMcpServer env |});
      try assumption; reflexivity.
  - unfold sse_closed.
    destruct (heap st !! r) as [t|]; [|exact Hm].
    destruct (kind t); [exact Hm|].
    destruct (sessionId t); exact Hm.
  - unfold messages_route.
    destruct (negb _); [exact Hm|].
    destruct (JS.get_prop _ _); exact Hm.
Qed.

Lemma reachable_reads_match (st : State) : reachable st -> reads_match st.
Proof.
  induction 1 as [|env st e Hr IH _].
  - split; [reflexivity|]. intros ref t H. cbn in H. rewrite lookup_empty in H. discriminate.
  - apply reads_match_step; [apply (reachable_invariant st Hr) | exact IH].
Qed.

(** C4 (as the code has it): the default zone of a session's server
    instance is the system zone read when that instance is built, that is
    during the event that creates the session's transport, by a call of
    [getLocalTimezone()] of its own; there is one such call per transport
    created and none at startup; no later event changes the instance of an
    existing transport, and a handler called without a zone argument uses
    its instance's [localTz]. *)
Theorem localTz_read_at_build (env : Env) (st : State) (e : Event)
    (ref : nat) (t' : Transport) :
  reachable st ->
  heap (fst (step env st e)) !! ref = Some t' ->
  match heap st !! ref with
  | Some t => server t' = server t
  | None =>
      server t' = buildMcpServer env /\ localTz (server t') = sysZone env /\
      zone_reads (fst (step env st e)) = zone_reads st ++ [sysZone env]
  end /\
  zone_reads (fst (step env st e)) !! ref = Some (localTz (server t')) /\
  length (zone_reads (fst (step env st e))) = next_ref (fst (step env st e)) /\
  zone_reads init = [] /\
  JS.or_else None (localTz (server t')) = localTz (server t').
Proof.
  intros Hr Hl.
  assert (reads_match (fst (step env st e))) as [Hlen Hreads]
    by (apply reads_match_step;
        [apply (reachable_invariant st Hr) | apply reachable_reads_match, Hr]).
  split; [|split; [exact (Hreads ref t' Hl) | split; [exact Hlen | split; reflexivity]]].
  clear Hlen Hreads.
  pose proof (refs_bounded_fresh st (proj2 (reachable_invariant st Hr))) as Hf.
  destruct e as [sid isInit | r id | r | id | r | sid]; cbn [step fst] in Hl |- *.
  - unfold mcp_route, build_logged in Hl |- *.
    destruct (JS.truthy sid && JS.truthy_prop _).
    + destruct (match sid with Some _ => _ | None => _ end);
        cbn [fst] in Hl |- *; rewrite Hl; reflexivity.
    + destruct (negb (JS.truthy sid) && isInit); cbn [fst] in Hl |- *;
        [|rewrite Hl; reflexivity].
      unfold alloc in Hl. cbn [heap next_ref] in Hl.
      destruct (decide (next_ref st = ref)) as [<-|Hne].
      * rewrite lookup_insert_eq in Hl. injection Hl as <-. rewrite Hf.
        repeat split; reflexivity.
      * rewrite lookup_insert_ne in Hl by exact Hne. rewrite Hl. reflexivity.
  - unfold session_initialized in Hl |- *.
    destruct (heap st !! r) as [t|] eqn:Ht; [|rewrite Hl; reflexivity].
    destruct (kind t); [|rewrite Hl; reflexivity].
    destruct (sessionId t); [rewrite Hl; reflexivity|].
    cbn [heap] in Hl.
    destruct (decide (r = ref)) as [<-|Hne].
    + rewrite lookup_insert_eq in Hl. injection Hl as <-. rewrite Ht. reflexivity.
    + rewrite lookup_insert_ne in Hl by exact Hne. rewrite Hl. reflexivity.
  - unfold streamable_closed in Hl |- *.
    destruct (heap st !! r) as [t|]; [|rewrite Hl; reflexivity].
    destruct (kind t); [|rewrite Hl; reflexivity].
    destruct (JS.truthy (sessionId t)); [|rewrite Hl; reflexivity].
    destruct (sessionId t); cbn [heap] in Hl; rewrite Hl; reflexivity.
  - unfold sse_route, build_logged in Hl |- *. cbn [fst heap zone_reads] in Hl |- *.
    destruct (decide (next_ref st = ref)) as [<-|Hne].
    + rewrite lookup_insert_eq in Hl. injection Hl as <-. rewrite Hf.
      repeat split; reflexivity.
    + rewrite lookup_insert_ne in Hl by exact Hne. rewrite Hl. reflexivity.
  - unfold sse_closed in Hl |- *.
    destruct (heap st !! r) as [t|]; [|rewrite Hl; reflexivity].
    destruct (kind t); [rewrite Hl; reflexivity|].
    destruct (sessionId t); cbn [heap] in Hl; rewrite Hl; reflexivity.
  - unfold messages_route in Hl |- *.
    destruct (negb _); [cbn [fst] in Hl |- *; rewrite Hl; reflexivity|].
    destruct (JS.get_prop _ _); cbn [fst] in Hl |- *; rewrite Hl; reflexivity.
Qed.

Lemma localTz_read_at_build_witness :
  let t' := {| kind := Sse; sessionId := Some Sample.uuid1;
               server := buildMcpServer Sample.env |} in
  server t' = buildMcpServer Sample.env /\ localTz (server t') = sysZone Sample.env /\
  zone_reads (fst (step Sample.env init (SseRequest Sample.uuid1))) = [sysZone Sample.env].
Proof.
  exact (proj1 (localTz_read_at_build Sample.env init (SseRequest Sample.uuid1) 0 _
                  reachable_init eq_refl)).
Defined.

(** C4 as stated fails: nothing is read at startup, every session reads
    the system zone for itself, and when the system zone differs between
    the creation of two sessions their instances carry different
    defaults. *)
Lemma localTz_differs_between_sessions :
  let st := run init [ (Sample.env, SseRequest Sample.uuid1);
                       (Sample.env_tokyo, SseRequest Sample.uuid2) ] in
  reachable st /\
  zone_reads init = [] /\
  zone_reads st = ["UTC"; "Asia/Tokyo"]%string /\
  (fun t => localTz (server t)) <$> heap st !! 0%nat = Some "UTC"%string /\
  (fun t => localTz (server t)) <$> heap st !! 1%nat = Some "Asia/Tokyo"%string.
Proof.
  split; [|repeat split; reflexivity].
  apply reachable_run; [apply reachable_init|].
  repeat (apply Forall_cons; split; [vm_compute; auto|]). apply Forall_nil_2.
Qed.

(* ====================================================================== *)
(** ** Further properties of the time functions *)
(* ====================================================================== *)

Lemma fixOffset_minutes (db : ZoneDb) (L c : Z) (z : Zone) :
  fst (fixOffset db L c z) mod 60000 = L mod 60000.
Proof.
  unfold fixOffset.
  destruct (c =? offset db z (L - c * 60000)); cbn [fst].
  - replace (L - c * 60000) with (L + (- c) * 60000) by lia. apply Z_mod_plus_full.
  - destruct (_ =? _); cbn [fst].
    + replace (L - c * 60000 - (offset db z (L - c * 60000) - c) * 60000)
        with (L + (- offset db z (L - c * 60000)) * 60000) by lia.
      apply Z_mod_plus_full.
    + match goal with |- (L - ?k * 60000) mod _ = _ =>
        replace (L - k * 60000) with (L + (- k) * 60000) by lia end.
      apply Z_mod_plus_full.
Qed.

Lemma set_time_ts (db : ZoneDb) (dt : DateTime) (h m : Z) :
  ts (set_time db dt h m) = fst (fixOffset db (objToLocalTS (local_day dt) h m 0 0) (o dt) (zone dt)).
Proof.
  unfold set_time. destruct (fixOffset _ _ _ _) as [t' o']. cbn [fst].
  destruct (Z.eqb_spec t' (ts dt)) as [E|E]; [now rewrite E | reflexivity].
Qed.

Lemma set_time_zone (db : ZoneDb) (dt : DateTime) (h m : Z) :
  zone (set_time db dt h m) = zone dt.
Proof.
  unfold set_time. destruct (fixOffset _ _ _ _) as [t' o'].
  destruct (t' =? ts dt); reflexivity.
Qed.

Lemma sourceDt_whole_minute (db : ZoneDb) (env : Env) (a : string) (parsed : DateTime) :
  ts (sourceDt db env a parsed) mod 60000 = 0.
Proof.
  unfold sourceDt. rewrite set_time_ts, fixOffset_minutes.
  unfold objToLocalTS. Z.div_mod_to_equations. lia.
Qed.

Lemma whole_minute_fields (dt : DateTime) :
  ts dt mod 60000 = 0 -> second dt = 0 /\ millisecond dt = 0.
Proof.
  intros H. unfold second, millisecond, local_ms.
  split; Z.div_mod_to_equations; lia.
Qed.

Lemma toISODate_lacks (x : ascii) (dt : DateTime) :
  JS.is_digit x = false -> Ascii.eqb "-" x = false -> Ascii.eqb "+" x = false ->
  JS.lacks x (toISODate dt) = true.
Proof.
  intros Hd Hm Hp. unfold toISODate. rewrite !lacks_append.
  rewrite !(padStart_lacks x) by assumption.
  cbn [JS.lacks]. rewrite Hm.
  destruct (((9999 <? year dt) || (year dt <? 0)) && (0 <=? year dt));
    cbn [JS.lacks]; rewrite ?Hp; reflexivity.
Qed.

(** An instant on a whole second prints without a decimal point. *)
Lemma toISO_no_fraction (dt : DateTime) :
  millisecond dt = 0 -> JS.lacks "." (toISO dt) = true.
Proof.
  intros H. unfold toISO, toISOTime. rewrite H. cbn [Z.eqb negb orb].
  rewrite !lacks_append, toISODate_lacks by reflexivity.
  rewrite !(padStart_lacks ".") by reflexivity.
  destruct (is_universal (zone dt) && (o dt =? 0)); [reflexivity|].
  destruct (o dt <? 0); rewrite !lacks_append, !(padStart_lacks ".") by reflexivity;
    reflexivity.
Qed.

(** An instant off the whole second prints with one. *)
Lemma toISO_fraction (dt : DateTime) :
  millisecond dt <> 0 -> JS.lacks "." (toISO dt) = false.
Proof.
  intros H. destruct (toISOTime_fraction dt H) as [rest E].
  unfold toISO. rewrite E, !lacks_append. cbn [JS.lacks Ascii.eqb].
  cbn. now rewrite !andb_false_r.
Qed.

(** X1: whatever the zones and the time asked for, both datetimes of a
    conversion lie on a whole minute: their seconds are 00 and they carry
    no fractional part. *)
Theorem convertTime_whole_minutes (db : ZoneDb) (env : Env) (a tm b : string)
    (r : TimeConversionResult) :
  convertTime db env a tm b = Returned r ->
  exists src tgt : DateTime,
    datetime (source r) = toISO src /\ datetime (target r) = toISO tgt /\
    second src = 0 /\ millisecond src = 0 /\
    second tgt = 0 /\ millisecond tgt = 0 /\
    JS.lacks "." (datetime (source r)) = true /\
    JS.lacks "." (datetime (target r)) = true.
Proof.
  unfold convertTime.
  destruct (negb (isValidTimezone db a)); [discriminate|].
  destruct (negb (isValidTimezone db b)); [discriminate|].
  destruct (fromFormat_HHmm db (sysZone env) (clock env) tm) as [parsed|];
    [|discriminate].
  intros [= <-]. cbn [source target datetime].
  exists (sourceDt db env a parsed), (targetDt db env a b parsed).
  pose proof (sourceDt_whole_minute db env a parsed) as Hs.
  assert (ts (targetDt db env a b parsed) mod 60000 = 0) as Ht
    by (unfold targetDt; now rewrite setZone_ts).
  destruct (whole_minute_fields _ Hs) as [S1 M1].
  destruct (whole_minute_fields _ Ht) as [S2 M2].
  repeat split; try assumption; apply toISO_no_fraction; assumption.
Qed.

Lemma convertTime_whole_minutes_witness :
  exists r,
    convertTime Sample.db Sample.env "Europe/London" "14:30" "Asia/Tokyo" = Returned r /\
    exists src tgt : DateTime,
      datetime (source r) = toISO src /\ datetime (target r) = toISO tgt /\
      second src = 0 /\ millisecond src = 0 /\
      second tgt = 0 /\ millisecond tgt = 0 /\
      JS.lacks "." (datetime (source r)) = true /\
      JS.lacks "." (datetime (target r)) = true.
Proof.
  eexists. split; [vm_compute; reflexivity|].
  exact (convertTime_whole_minutes Sample.db Sample.env
           "Europe/London" "14:30" "Asia/Tokyo" _ eq_refl).
Defined.

(** X2: for a valid zone [getCurrentTime] returns a result for that zone
    whose datetime is free of fractional seconds exactly when the clock
    reading falls on a whole second. *)
Theorem getCurrentTime_fraction_iff (db : ZoneDb) (env : Env) (tz : string) :
  isValidTimezone db tz = true ->
  exists r,
    getCurrentTime db env tz = Returned r /\ timezone r = tz /\
    (JS.lacks "." (datetime r) = true <-> clock env mod 1000 = 0).
Proof.
  intros Hv. unfold getCurrentTime. rewrite Hv. cbn [negb].
  eexists. split; [reflexivity|]. split; [reflexivity|]. cbn [datetime].
  rewrite setZone_now.
  set (dt := {| ts := clock env; zone := normalize_zone tz;
                o := offset db (normalize_zone tz) (clock env) |}).
  assert (millisecond dt = clock env mod 1000) as Hms.
  { unfold millisecond, local_ms, dt. cbn [ts o].
    replace (clock env + offset db (normalize_zone tz) (clock env) * 60000)
      with (clock env + (offset db (normalize_zone tz) (clock env) * 60) * 1000) by lia.
    apply Z_mod_plus_full. }
  split.
  - intros H. destruct (Z.eq_dec (clock env mod 1000) 0) as [E|E]; [exact E|].
    rewrite toISO_fraction in H by (rewrite Hms; exact E). discriminate.
  - intros E. apply toISO_no_fraction. now rewrite Hms.
Qed.

Lemma getCurrentTime_fraction_iff_witness :
  exists r,
    getCurrentTime Sample.db Sample.env "Asia/Kolkata" = Returned r /\
    timezone r = "Asia/Kolkata"%string /\
    (JS.lacks "." (datetime r) = true <-> clock Sample.env mod 1000 = 0).
Proof.
  exact (getCurrentTime_fraction_iff Sample.db Sample.env "Asia/Kolkata" eq_refl).
Defined.

Lemma zone_equals_refl (z : Zone) : zone_equals z z = true.
Proof. destruct z; cbn; try reflexivity. apply String.eqb_refl. Qed.

Lemma targetDt_same_zone (db : ZoneDb) (env : Env) (a : string) (parsed : DateTime) :
  targetDt db env a a parsed = sourceDt db env a parsed.
Proof.
  unfold targetDt, setZone.
  assert (zone (sourceDt db env a parsed) = normalize_zone a) as ->
    by (unfold sourceDt; now rewrite set_time_zone, setZone_now).
  now rewrite zone_equals_refl.
Qed.

(** X3: a conversion whose source and target are the same zone name returns
    the same datetime twice and the difference "+0h". *)
Theorem convertTime_same_zone (db : ZoneDb) (env : Env) (a tm : string)
    (r : TimeConversionResult) :
  convertTime db env a tm a = Returned r ->
  datetime (target r) = datetime (source r) /\
  timezone (target r) = timezone (source r) /\
  time_difference r = "+0h"%string.
Proof.
  unfold convertTime.
  destruct (negb (isValidTimezone db a)); [discriminate|].
  destruct (fromFormat_HHmm db (sysZone env) (clock env) tm) as [parsed|];
    [|discriminate].
  intros [= <-]. cbn [source target datetime timezone time_difference].
  rewrite targetDt_same_zone, Z.sub_diag. repeat split; reflexivity.
Qed.

Lemma convertTime_same_zone_witness :
  exists r,
    convertTime Sample.db Sample.env "Asia/Kathmandu" "09:00" "Asia/Kathmandu" = Returned r /\
    datetime (target r) = datetime (source r) /\
    timezone (target r) = timezone (source r) /\
    time_difference r = "+0h"%string.
Proof.
  eexists. split; [vm_compute; reflexivity|].
  exact (convertTime_same_zone Sample.db Sample.env "Asia/Kathmandu" "09:00" _ eq_refl).
Defined.

(** X4: the difference strings of a difference and of its opposite differ
    in the sign only: "+" for the positive one, "-" for the negative. *)
Theorem timeDiffStr_opposite (m : Z) :
  0 < m ->
  exists body : string,
    timeDiffStr m = "+" +:+ body /\ timeDiffStr (- m) = "-" +:+ body.
Proof.
  intros H. rewrite !timeDiffStr_spec. unfold Spec.time_difference.
  rewrite Z.abs_opp, (Z.abs_eq m) by lia.
  replace (0 <=? m) with true by lia. replace (0 <=? - m) with false by lia.
  destruct (m mod 60 =? 0); eexists; split; reflexivity.
Qed.

Lemma timeDiffStr_opposite_witness :
  exists body : string,
    timeDiffStr 345 = "+" +:+ body /\ timeDiffStr (- 345) = "-" +:+ body.
Proof. apply (timeDiffStr_opposite 345). lia. Defined.

Lemma toISODate_local_day (d1 d2 : DateTime) :
  local_day d1 = local_day d2 -> toISODate d1 = toISODate d2.
Proof. unfold toISODate, year, month, day. now intros ->. Qed.

Lemma toISOTime_offset_suffix (z : Zone) (c : Z) :
  (is_universal z = true -> c = 0) ->
  (if is_universal z && (c =? 0) then "Z"
   else if c <? 0 then
     "-" +:+ padStart (Z.quot (- c) 60) 2 +:+ ":" +:+ padStart (Z.rem (- c) 60) 2
   else
     "+" +:+ padStart (Z.quot c 60) 2 +:+ ":" +:+ padStart (Z.rem c 60) 2)
  = Spec.offset_suffix z c.
Proof.
  intros Hu. unfold Spec.offset_suffix.
  assert ((if c <? 0 then
             "-" +:+ padStart (Z.quot (- c) 60) 2 +:+ ":" +:+ padStart (Z.rem (- c) 60) 2
           else
             "+" +:+ padStart (Z.quot c 60) 2 +:+ ":" +:+ padStart (Z.rem c 60) 2)
          = (if c <? 0 then "-" else "+") +:+
            padStart (Z.abs c / 60) 2 +:+ ":" +:+ padStart (Z.abs c mod 60) 2) as E.
  { destruct (Z.ltb_spec c 0) as [L|L].
    - rewrite Z.quot_div_nonneg, Z.rem_mod_nonneg, Z.abs_neq by lia. reflexivity.
    - rewrite Z.quot_div_nonneg, Z.rem_mod_nonneg, Z.abs_eq by lia. reflexivity. }
  destruct z as [name| |name]; cbn [is_universal andb]; try exact E.
  rewrite (Hu eq_refl). reflexivity.
Qed.

(** X5: when the source zone and the host zone keep their offsets within a
    day of the call, the source datetime of a conversion is today's date in
    the source zone, then "T", the time asked for, seconds 00, and the
    offset suffix of the source zone: "Z" for UTC, otherwise the sign, two
    digits of hours, a colon and two digits of minutes of its offset. *)
Theorem convertTime_source_echo (db : ZoneDb) (env : Env) (a tm b : string) (cA cS : Z) :
  isValidTimezone db a = true -> isValidTimezone db b = true ->
  Spec.strict_HHMM tm = true ->
  Spec.steady db env (normalize_zone a) cA ->
  Spec.steady db env (SystemZone (sysZone env)) cS ->
  exists r : TimeConversionResult,
    convertTime db env a tm b = Returned r /\
    datetime (source r) =
      toISODate (setZone db (now db (sysZone env) (clock' env)) a) +:+
      "T" +:+ tm +:+ ":00" +:+ Spec.offset_suffix (normalize_zone a) cA /\
    Spec.wall_clock (datetime (source r)) = tm.
Proof.
  intros Va Vb Hstrict HA HS.
  destruct (strict_HHMM_fields tm Hstrict) as (h & m & Hs & Hh & Hm).
  destruct (fromFormat_steady db env tm h m cS Hs Hh Hm HS) as (parsed & Hp & Eh & Em).
  unfold convertTime. rewrite Va, Vb, Hp. cbn [negb].
  eexists. split; [reflexivity|]. cbn [source datetime].
  pose proof (sourceDt_steady db env a parsed cA HA) as Hsrc.
  rewrite Eh, Em in Hsrc. rewrite Hsrc.
  set (src := {| ts := objToLocalTS ((clock' env + cA * 60000) / 86400000) h m 0 0
                         - cA * 60000;
                 zone := normalize_zone a; o := cA |}).
  assert (local_ms src = objToLocalTS ((clock' env + cA * 60000) / 86400000) h m 0 0)
    as Hl by (unfold local_ms, src; cbn [ts o]; lia).
  destruct (local_fields ((clock' env + cA * 60000) / 86400000) h m Hh Hm)
    as (Fd & Fh & Fm).
  assert (hour src = h) as Hhour by (unfold hour; now rewrite Hl).
  assert (minute src = m) as Hmin by (unfold minute; now rewrite Hl).
  assert (ts src mod 60000 = 0) as Hwhole
    by (unfold src, objToLocalTS; cbn [ts]; Z.div_mod_to_equations; lia).
  destruct (whole_minute_fields src Hwhole) as [Hsec Hms].
  apply match_HHmm_print in Hs as (_ & _ & Htm).
  split.
  - unfold toISO.
    rewrite (toISODate_local_day src (setZone db (now db (sysZone env) (clock' env)) a)).
    + f_equal. f_equal. unfold toISOTime.
      rewrite Hhour, Hmin, Hsec, Hms, Htm, !padStart2 by lia.
      change (zone src) with (normalize_zone a). change (o src) with cA.
      rewrite toISOTime_offset_suffix.
      * cbn. reflexivity.
      * intros Hu. destruct (steady_at_clock _ _ _ _ HA) as [<- _].
        destruct (normalize_zone a); try discriminate Hu. reflexivity.
    + rewrite setZone_now. unfold local_day at 2, local_ms. cbn [ts o].
      destruct (steady_at_clock _ _ _ _ HA) as [_ ->].
      unfold local_day. now rewrite Hl.
  - rewrite wall_clock_toISO, Hhour, Hmin. now rewrite Htm.
Qed.

Lemma convertTime_source_echo_witness :
  exists r : TimeConversionResult,
    convertTime Sample.db Sample.env "Asia/Tokyo" "07:05" "Europe/London" = Returned r /\
    datetime (source r) =
      toISODate (setZone Sample.db
                   (now Sample.db (sysZone Sample.env) (clock' Sample.env)) "Asia/Tokyo") +:+
      "T" +:+ "07:05" +:+ ":00" +:+ Spec.offset_suffix (normalize_zone "Asia/Tokyo") 540 /\
    Spec.wall_clock (datetime (source r)) = "07:05"%string.
Proof.
  apply (convertTime_source_echo Sample.db Sample.env
           "Asia/Tokyo" "07:05" "Europe/London" 540 0);
    try reflexivity; intros t _; reflexivity.
Defined.

Lemma shift_fields (d h m cA cB : Z) :
  let T := objToLocalTS d h m 0 0 - cA * 60000 + cB * 60000 in
  60 * ((T / 3600000) mod 24) + (T / 60000) mod 60 = (60 * h + m + cB - cA) mod 1440.
Proof.
  intros T.
  assert (T = (d * 1440 + (60 * h + m + cB - cA)) * 60000) as ->
    by (subst T; unfold objToLocalTS; lia).
  set (K := d * 1440 + (60 * h + m + cB - cA)).
  rewrite Z.div_mul by lia.
  change 3600000 with (60 * 60000). rewrite Z.div_mul_cancel_r by lia.
  assert ((60 * h + m + cB - cA) mod 1440 = K mod 1440) as ->
    by (subst K; symmetry; rewrite (Z.add_comm (d * 1440)); apply Z_mod_plus_full).
  Z.div_mod_to_equations. lia.
Qed.

(** X6: when both zones and the host zone keep their offsets within a day
    of the call, the target's wall clock is the time asked for plus the
    offset difference, counted around the clock, and [time_difference] is
    that offset difference. *)
Theorem convertTime_target_shift (db : ZoneDb) (env : Env) (a tm b : string)
    (cA cB cS : Z) :
  isValidTimezone db a = true -> isValidTimezone db b = true ->
  Spec.strict_HHMM tm = true ->
  Spec.steady db env (normalize_zone a) cA ->
  Spec.steady db env (normalize_zone b) cB ->
  Spec.steady db env (SystemZone (sysZone env)) cS ->
  exists (r : TimeConversionResult) (h m h' m' : Z),
    convertTime db env a tm b = Returned r /\
    tm = padStart h 2 +:+ ":" +:+ padStart m 2 /\
    Spec.wall_clock (datetime (target r)) = padStart h' 2 +:+ ":" +:+ padStart m' 2 /\
    0 <= h' < 24 /\ 0 <= m' < 60 /\
    60 * h' + m' = (60 * h + m + cB - cA) mod 1440 /\
    time_difference r = Spec.time_difference (cB - cA).
Proof.
  intros Va Vb Hstrict HA HB HS.
  destruct (strict_HHMM_fields tm Hstrict) as (h & m & Hs & Hh & Hm).
  destruct (fromFormat_steady db env tm h m cS Hs Hh Hm HS) as (parsed & Hp & Eh & Em).
  unfold convertTime. rewrite Va, Vb, Hp. cbn [negb].
  set (T := objToLocalTS ((clock' env + cA * 60000) / 86400000) h m 0 0
            - cA * 60000 + cB * 60000).
  eexists. exists h, m, ((T / 3600000) mod 24), ((T / 60000) mod 60).
  split; [reflexivity|]. cbn [target datetime time_difference].
  destruct (targetDt_steady db env a b parsed cA cB HA HB) as [Hts Ho].
  pose proof (sourceDt_steady db env a parsed cA HA) as Hsrc.
  split; [apply match_HHmm_print in Hs as (_ & _ & ->); reflexivity|].
  split.
  { rewrite wall_clock_toISO. unfold hour at 1, minute at 1, local_ms.
    rewrite Hts, Ho, Hsrc. cbn [ts]. rewrite Eh, Em. reflexivity. }
  split; [apply Z.mod_pos_bound; lia|].
  split; [apply Z.mod_pos_bound; lia|].
  split.
  { apply shift_fields. }
  rewrite Ho, Hsrc. cbn [o]. apply timeDiffStr_spec.
Qed.

Lemma convertTime_target_shift_witness :
  exists (r : TimeConversionResult) (h m h' m' : Z),
    convertTime Sample.db Sample.env "Asia/Tokyo" "01:10" "Asia/Kathmandu" = Returned r /\
    "01:10"%string = padStart h 2 +:+ ":" +:+ padStart m 2 /\
    Spec.wall_clock (datetime (target r)) = padStart h' 2 +:+ ":" +:+ padStart m' 2 /\
    0 <= h' < 24 /\ 0 <= m' < 60 /\
    60 * h' + m' = (60 * h + m + 345 - 540) mod 1440 /\
    time_difference r = Spec.time_difference (345 - 540).
Proof.
  apply (convertTime_target_shift Sample.db Sample.env
           "Asia/Tokyo" "01:10" "Asia/Kathmandu" 540 345 0);
    try reflexivity; intros t _; reflexivity.
Defined.

(* ====================================================================== *)
(** ** Further properties of the tool handlers *)
(* ====================================================================== *)

Lemma includes_app_r (p s needle : string) :
  JS.includes s needle = true -> JS.includes (p +:+ s) needle = true.
Proof.
  intros H. induction p as [|c p IH]; [exact H|].
  cbn [String.append JS.includes]. rewrite IH. apply orb_true_r.
Qed.

Lemma includes_between (p x q : string) : JS.includes (p +:+ x +:+ q) x = true.
Proof. apply includes_app_r, includes_prefix. Qed.

(** X7: the payload of [get_current_time] starts with "Error" exactly when
    the effective zone (the argument, or the instance's default when the
    argument is absent or empty) is not a valid zone; otherwise the time
    engine returns a result for the effective zone and the payload is that
    result printed as a JSON object. *)
Theorem get_current_time_payload_kind (db : ZoneDb) (srv : McpServer) (env : Env)
    (tz : option string) :
  let eff := JS.or_else tz (localTz srv) in
  String.prefix "Error" (Spec.payload (get_current_time_handler db srv env tz)) =
    negb (isValidTimezone db eff) /\
  (isValidTimezone db eff = true ->
   exists r : TimeResult,
     getCurrentTime db env eff = Returned r /\
     timezone r = eff /\
     get_current_time_handler db srv env tz =
       Resolved (text_result (json_TimeResult "" r))).
Proof.
  cbv zeta. destruct (isValidTimezone db (JS.or_else tz (localTz srv))) eqn:Hv.
  - unfold get_current_time_handler, getCurrentTime. rewrite Hv. cbn [negb].
    split; [reflexivity|]. intros _.
    eexists. split; [reflexivity|]. split; reflexivity.
  - rewrite get_current_time_handler_invalid by exact Hv.
    split; [reflexivity | discriminate].
Qed.

Lemma get_current_time_payload_kind_witness :
  exists r : TimeResult,
    getCurrentTime Sample.db Sample.env "Asia/Kolkata" = Returned r /\
    timezone r = "Asia/Kolkata"%string /\
    get_current_time_handler Sample.db (buildMcpServer Sample.env) Sample.env
      (Some "Asia/Kolkata") =
      Resolved (text_result (json_TimeResult "" r)).
Proof.
  exact (proj2 (get_current_time_payload_kind Sample.db (buildMcpServer Sample.env)
                  Sample.env (Some "Asia/Kolkata")) eq_refl).
Defined.

(** X8: the payload of [convert_time] starts with "Error" exactly when one
    of the two effective zones is not valid or the time string is not one
    the parser accepts; otherwise the time engine returns a conversion
    between the two effective zones and the payload is that result printed
    as a JSON object. *)
Theorem convert_time_payload_kind (db : ZoneDb) (srv : McpServer) (env : Env)
    (src : option string) (tm : string) (tgt : option string) :
  let s := JS.or_else src (localTz srv) in
  let t := JS.or_else tgt (localTz srv) in
  let ok := isValidTimezone db s && isValidTimezone db t &&
            match fromFormat_HHmm db (sysZone env) (clock env) tm with
            | Some _ => true
            | None => false
            end in
  String.prefix "Error" (Spec.payload (convert_time_handler db srv env src tm tgt)) = negb ok /\
  (ok = true ->
   exists r : TimeConversionResult,
     convertTime db env s tm t = Returned r /\
     timezone (source r) = s /\ timezone (target r) = t /\
     convert_time_handler db srv env src tm tgt =
       Resolved (text_result (json_TimeConversionResult r))).
Proof.
  cbv zeta.
  destruct (isValidTimezone db (JS.or_else src (localTz srv))) eqn:Hs.
  - destruct (isValidTimezone db (JS.or_else tgt (localTz srv))) eqn:Ht.
    + destruct (fromFormat_HHmm db (sysZone env) (clock env) tm) as [parsed|] eqn:Hp.
      * unfold convert_time_handler, convertTime. rewrite Hs, Ht, Hp. cbn [negb andb].
        split; [reflexivity|]. intros _.
        eexists. split; [reflexivity|]. repeat split.
      * rewrite (convert_time_handler_invalid_time db srv env src tm tgt Hs Ht Hp).
        split; [reflexivity | discriminate].
    + rewrite (convert_time_handler_invalid_target db srv env src tm tgt Hs Ht).
      destruct (JS.includes _ _); (split; [reflexivity | discriminate]).
  - rewrite (convert_time_handler_invalid_source db srv env src tm tgt Hs).
    split; [reflexivity | discriminate].
Qed.

Lemma convert_time_payload_kind_witness :
  exists r : TimeConversionResult,
    convertTime Sample.db Sample.env "Asia/Kolkata" "18:45" "America/New_York" =
      Returned r /\
    timezone (source r) = "Asia/Kolkata"%string /\
    timezone (target r) = "America/New_York"%string /\
    convert_time_handler Sample.db (buildMcpServer Sample.env) Sample.env
      (Some "Asia/Kolkata") "18:45" (Some "America/New_York") =
      Resolved (text_result (json_TimeConversionResult r)).
Proof.
  exact (proj2 (convert_time_payload_kind Sample.db (buildMcpServer Sample.env)
                  Sample.env (Some "Asia/Kolkata") "18:45" (Some "America/New_York"))
           eq_refl).
Defined.

(** X9: when the effective zone of [get_current_time] is not valid, the
    payload contains that zone name. *)
Theorem get_current_time_names_zone (db : ZoneDb) (srv : McpServer) (env : Env)
    (tz : option string) :
  isValidTimezone db (JS.or_else tz (localTz srv)) = false ->
  JS.includes (Spec.payload (get_current_time_handler db srv env tz))
    (JS.or_else tz (localTz srv)) = true.
Proof.
  intros Hv. rewrite get_current_time_handler_invalid by exact Hv.
  cbn [Spec.payload text_result content]. apply includes_between.
Qed.

Lemma get_current_time_names_zone_witness :
  JS.includes
    (Spec.payload (get_current_time_handler Sample.db (buildMcpServer Sample.env)
                     Sample.env (Some "Mars/Gale_Crater")))
    "Mars/Gale_Crater" = true.
Proof.
  apply (get_current_time_names_zone Sample.db (buildMcpServer Sample.env) Sample.env
           (Some "Mars/Gale_Crater")).
  reflexivity.
Defined.

(** X10: the payload of a failed [convert_time] contains the value at
    fault: the source zone when it is not valid; else the target zone when
    it is not valid and its name does not contain the words "Invalid source
    timezone"; else the time string when the parser refuses it. *)
Theorem convert_time_names_value (db : ZoneDb) (srv : McpServer) (env : Env)
    (src : option string) (tm : string) (tgt : option string) :
  let s := JS.or_else src (localTz srv) in
  let t := JS.or_else tgt (localTz srv) in
  let text := Spec.payload (convert_time_handler db srv env src tm tgt) in
  (isValidTimezone db s = false -> JS.includes text s = true) /\
  (isValidTimezone db s = true -> isValidTimezone db t = false ->
   JS.includes t "Invalid source timezone" = false -> JS.includes text t = true) /\
  (isValidTimezone db s = true -> isValidTimezone db t = true ->
   Spec.accepted_time tm = false -> JS.includes text tm = true).
Proof.
  cbv zeta. split; [|split].
  - intros Hs. rewrite (convert_time_handler_invalid_source db srv env src tm tgt Hs).
    cbn [Spec.payload text_result content]. apply includes_between.
  - intros Hs Ht Hn.
    rewrite (convert_time_handler_invalid_target db srv env src tm tgt Hs Ht), Hn.
    cbn [Spec.payload text_result content]. apply includes_between.
  - intros Hs Ht Ha.
    rewrite (convert_time_handler_invalid_time db srv env src tm tgt Hs Ht)
      by (apply fromFormat_HHmm_accepts; exact Ha).
    cbn [Spec.payload text_result content]. apply includes_between.
Qed.

Lemma convert_time_names_value_witness :
  JS.includes
    (Spec.payload (convert_time_handler Sample.db (buildMcpServer Sample.env) Sample.env
                     (Some "Pluto/Sputnik_Planitia") "10:00" (Some "Europe/London")))
    "Pluto/Sputnik_Planitia" = true /\
  JS.includes
    (Spec.payload (convert_time_handler Sample.db (buildMcpServer Sample.env) Sample.env
                     (Some "America/New_York") "11:00" (Some "Jupiter/Great_Red_Spot")))
    "Jupiter/Great_Red_Spot" = true /\
  JS.includes
    (Spec.payload (convert_time_handler Sample.db (buildMcpServer Sample.env) Sample.env
                     None "25:61" (Some "Asia/Kolkata")))
    "25:61" = true.
Proof.
  split; [|split].
  - apply (proj1 (convert_time_names_value Sample.db (buildMcpServer Sample.env) Sample.env
                    (Some "Pluto/Sputnik_Planitia") "10:00" (Some "Europe/London"))).
    reflexivity.
  - apply (proj1 (proj2 (convert_time_names_value Sample.db (buildMcpServer Sample.env)
                    Sample.env (Some "America/New_York") "11:00"
                    (Some "Jupiter/Great_Red_Spot")))); reflexivity.
  - apply (proj2 (proj2 (convert_time_names_value Sample.db (buildMcpServer Sample.env)
                    Sample.env None "25:61" (Some "Asia/Kolkata")))); reflexivity.
Defined.

(** X11: [convert_time] called without zone arguments converts within the
    instance's default zone: when that zone is valid and the time is
    accepted, the payload is the JSON text of a result whose source and
    target are both the default zone with the same datetime, and whose
    difference is "+0h". *)
Theorem convert_time_defaults (db : ZoneDb) (srv : McpServer) (env : Env) (tm : string) :
  isValidTimezone db (localTz srv) = true ->
  Spec.accepted_time tm = true ->
  exists r,
    convert_time_handler db srv env None tm None =
      Resolved (text_result (json_TimeConversionResult r)) /\
    timezone (source r) = localTz srv /\ timezone (target r) = localTz srv /\
    datetime (target r) = datetime (source r) /\
    time_difference r = "+0h"%string.
Proof.
  intros Hv Ha.
  destruct (proj1 (fromFormat_HHmm_accepts db (sysZone env) (clock env) tm) Ha)
    as [parsed Hp].
  unfold convert_time_handler, convertTime. cbn [JS.or_else].
  rewrite Hv, Hp. cbn [negb].
  eexists. split; [reflexivity|].
  cbn [source target timezone datetime time_difference].
  rewrite targetDt_same_zone, Z.sub_diag. repeat split; reflexivity.
Qed.

Lemma convert_time_defaults_witness :
  exists r,
    convert_time_handler Sample.db (buildMcpServer Sample.env_tokyo) Sample.env_tokyo
      None "09:00" None =
      Resolved (text_result (json_TimeConversionResult r)) /\
    timezone (source r) = "Asia/Tokyo"%string /\ timezone (target r) = "Asia/Tokyo"%string /\
    datetime (target r) = datetime (source r) /\
    time_difference r = "+0h"%string.
Proof.
  apply (convert_time_defaults Sample.db (buildMcpServer Sample.env_tokyo)
           Sample.env_tokyo "09:00"); reflexivity.
Defined.

(* ====================================================================== *)
(** ** Further properties of the registries and routes *)
(* ====================================================================== *)

Lemma kind_of_alloc (h : gmap nat Transport) (table : gmap string nat)
    (k : TransportKind) (ref : nat) (t : Transport) :
  h !! ref = None -> Spec.kind_of h table k -> Spec.kind_of (<[ref := t]> h) table k.
Proof.
  intros Hfresh Hk key r Hr. destruct (Hk key r Hr) as (t0 & Ht0 & Hkind).
  exists t0. split; [|exact Hkind].
  rewrite lookup_insert_ne; [exact Ht0|]. congruence.
Qed.

Lemma kind_of_set_id (h : gmap nat Transport) (table : gmap string nat)
    (k : TransportKind) (ref : nat) (t : Transport) (id : string) :
  h !! ref = Some t ->
  Spec.kind_of h table k -> Spec.kind_of (<[ref := set_sessionId t id]> h) table k.
Proof.
  intros Ht Hk key r Hr. destruct (Hk key r Hr) as (t0 & Ht0 & Hkind).
  destruct (decide (ref = r)) as [<-|Hne].
  - rewrite Ht in Ht0. injection Ht0 as <-.
    exists (set_sessionId t id). rewrite lookup_insert_eq. split; [reflexivity | exact Hkind].
  - exists t0. rewrite lookup_insert_ne by exact Hne. split; assumption.
Qed.

Lemma kind_of_register (h : gmap nat Transport) (table : gmap string nat)
    (k : TransportKind) (ref : nat) (t : Transport) (id : string) :
  h !! ref = Some t -> kind t = k ->
  Spec.kind_of h table k -> Spec.kind_of h (<[id := ref]> table) k.
Proof.
  intros Ht Hkind Hk key r Hr.
  destruct (decide (id = key)) as [<-|Hne].
  - rewrite lookup_insert_eq in Hr. injection Hr as <-. eauto.
  - rewrite lookup_insert_ne in Hr by exact Hne. exact (Hk key r Hr).
Qed.

Lemma kind_of_delete (h : gmap nat Transport) (table : gmap string nat)
    (k : TransportKind) (id : string) :
  Spec.kind_of h table k -> Spec.kind_of h (delete id table) k.
Proof.
  intros Hk key r Hr. apply lookup_delete_Some in Hr as [_ Hr]. exact (Hk key r Hr).
Qed.

Lemma kinds_step (env : Env) (st : State) (e : Event) :
  refs_bounded st -> Spec.kinds_match st -> Spec.kinds_match (fst (step env st e)).
Proof.
  intros Hb Hm. pose proof Hm as [Hs He].
  pose proof (refs_bounded_fresh st Hb) as Hf.
  destruct e as [sid isInit | ref id | ref | id | ref | sid]; cbn [step fst].
  - unfold mcp_route, build_logged.
    destruct (JS.truthy sid && JS.truthy_prop _).
    + destruct (match sid with Some _ => _ | None => _ end); exact Hm.
    + destruct (negb (JS.truthy sid) && isInit); [|exact Hm].
      split; apply kind_of_alloc; assumption.
  - unfold session_initialized.
    destruct (heap st !! ref) as [t|] eqn:Ht; [|exact Hm].
    destruct (kind t) eqn:Hk; [|exact Hm].
    destruct (sessionId t) eqn:Hid; [exact Hm|].
    split; cbn [heap streamableTransports sseTransports].
    + apply (kind_of_register _ _ _ ref (set_sessionId t id) id);
        [apply lookup_insert_eq | exact Hk | apply kind_of_set_id; assumption].
    + apply kind_of_set_id; assumption.
  - unfold streamable_closed.
    destruct (heap st !! ref) as [t|]; [|exact Hm].
    destruct (kind t); [|exact Hm].
    destruct (JS.truthy (sessionId t)); [|exact Hm].
    destruct (sessionId t) as [id|]; [|exact Hm].
    split; [apply kind_of_delete, Hs | exact He].
  - unfold sse_route, build_logged.
    split; cbn [fst heap streamableTransports sseTransports next_ref].
    + apply kind_of_alloc; assumption.
    + apply (kind_of_register _ _ _ (next_ref st)
               {| kind := Sse; sessionId := Some id; server := buildMcpServer env |} id);
        [apply lookup_insert_eq | reflexivity | apply kind_of_alloc; assumption].
  - unfold sse_closed.
    destruct (heap st !! ref) as [t|]; [|exact Hm].
    destruct (kind t); [exact Hm|].
    destruct (sessionId t) as [id|]; [|exact Hm].
    split; [exact Hs | apply kind_of_delete, He].
  - unfold messages_route.
    destruct (negb _); [exact Hm|].
    destruct (JS.get_prop _ _); exact Hm.
Qed.

Lemma reachable_kinds (st : State) : reachable st -> Spec.kinds_match st.
Proof.
  induction 1 as [|env st e Hr IH _].
  - split; intros k r H; cbn in H; rewrite lookup_empty in H; discriminate.
  - apply kinds_step; [apply (reachable_invariant st Hr) | exact IH].
Qed.

Lemma get_prop_own {A} (own : gmap string A) (k : string) (a : A) :
  JS.get_prop own k = JS.Own a -> own !! k = Some a.
Proof.
  unfold JS.get_prop. destruct (own !! k); [now intros [= ->]|].
  destruct (bool_decide _); discriminate.
Qed.

(** X12: in every reachable state, a /mcp request that is handed to an
    existing transport is handed to a streamable transport whose own
    session id is the header value, and a /messages request that is handed
    to a transport is handed to an SSE transport whose own session id is
    the query value; neither changes the state. *)
Theorem delegation_is_to_own_session (st : State) :
  reachable st ->
  (forall env sid isInit st' ref,
     sid <> ""%string ->
     mcp_route env st (Some sid) isInit = (st', Delegated ref) ->
     st' = st /\
     exists t, heap st !! ref = Some t /\ kind t = Streamable /\ sessionId t = Some sid) /\
  (forall sid st' ref,
     messages_route st (Some sid) = (st', Delegated ref) ->
     st' = st /\
     exists t, heap st !! ref = Some t /\ kind t = Sse /\ sessionId t = Some sid).
Proof.
  intros Hr.
  destruct (reachable_invariant st Hr) as [[Ks Ke] _].
  destruct (reachable_kinds st Hr) as [Ts Te].
  split.
  - intros env sid isInit st' ref Hne. unfold mcp_route.
    assert (JS.truthy (Some sid) = true) as ->
      by (cbn; now apply negb_true_iff, String.eqb_neq).
    cbn [andb negb].
    destruct (JS.get_prop (streamableTransports st) sid) as [r| |] eqn:Hg;
      cbn [JS.truthy_prop]; intros [= <- <-].
    apply get_prop_own in Hg. split; [reflexivity|].
    destruct (Ks sid r Hg) as (t & Ht & Hid).
    destruct (Ts sid r Hg) as (t0 & Ht0 & Hkind).
    rewrite Ht in Ht0. injection Ht0 as <-. eauto.
  - intros sid st' ref. unfold messages_route.
    destruct (JS.get_prop (sseTransports st) sid) as [r| |] eqn:Hg;
      cbn [JS.truthy_prop negb]; intros [= <- <-].
    apply get_prop_own in Hg. split; [reflexivity|].
    destruct (Ke sid r Hg) as (t & Ht & Hid).
    destruct (Te sid r Hg) as (t0 & Ht0 & Hkind).
    rewrite Ht in Ht0. injection Ht0 as <-. eauto.
Qed.

Lemma delegation_is_to_own_session_witness :
  let st := run init [ (Sample.env, SseRequest Sample.uuid1);
                       (Sample.env, McpRequest None true);
                       (Sample.env, SessionInitialized 1 Sample.uuid2) ] in
  exists t, heap st !! 1%nat = Some t /\ kind t = Streamable /\
            sessionId t = Some Sample.uuid2.
Proof.
  cbv zeta.
  set (st := run init [ (Sample.env, SseRequest Sample.uuid1);
                        (Sample.env, McpRequest None true);
                        (Sample.env, SessionInitialized 1 Sample.uuid2) ]).
  assert (reachable st) as Hr.
  { apply reachable_run; [apply reachable_init|].
    repeat (apply Forall_cons; split; [vm_compute; auto|]). apply Forall_nil_2. }
  assert (Sample.uuid2 <> ""%string) as Hne by discriminate.
  assert (mcp_route Sample.env st (Some Sample.uuid2) false = (st, Delegated 1)) as Hroute
    by (vm_compute; reflexivity).
  exact (proj2 (proj1 (delegation_is_to_own_session st Hr)
                  Sample.env Sample.uuid2 false st 1%nat Hne Hroute)).
Defined.

Lemma uuid_truthy (id : string) : is_uuid id = true -> JS.truthy (Some id) = true.
Proof.
  intros H. cbn. apply negb_true_iff, String.eqb_neq.
  apply (uuid_not_inherited id H).
Qed.

Lemma get_prop_absent_uuid {A} (own : gmap string A) (id : string) :
  is_uuid id = true -> own !! id = None -> JS.get_prop own id = JS.Undefined.
Proof.
  intros H Hn. unfold JS.get_prop. rewrite Hn.
  rewrite bool_decide_eq_false_2; [reflexivity|]. apply (uuid_not_inherited id H).
Qed.

Lemma get_prop_insert_ne {A} (own : gmap string A) (id k : string) (a : A) :
  k <> id -> JS.get_prop (<[id := a]> own) k = JS.get_prop own k.
Proof. intros H. unfold JS.get_prop. now rewrite lookup_insert_ne by congruence. Qed.

Lemma get_prop_insert_eq {A} (own : gmap string A) (id : string) (a : A) :
  JS.get_prop (<[id := a]> own) id = JS.Own a.
Proof. unfold JS.get_prop. now rewrite lookup_insert_eq. Qed.

(** X13: the registry entry of a streamable session.  An initialize
    request without a session header creates a transport and registers
    nothing yet; once the SDK has given the transport its id and run
    [onsessioninitialized], every request carrying that id is handed to
    it, and requests carrying another id are answered as before.  The
    route also assigns a handler to [transport.onclose]; whether that
    handler is ever run is the SDK's doing (an SDK that installs its own
    [onclose] when the server connects never runs it, and the entry then
    stays).  Where the handler is run, a later request carrying the id is
    answered 400, be it an initialize request or not. *)
Theorem streamable_session_life (env env' : Env) (st : State) (id : string)
    (isInit : bool) :
  is_uuid id = true ->
  let ref := next_ref st in
  let st1 := fst (mcp_route env st None true) in
  let st2 := session_initialized st1 ref id in
  let st3 := streamable_closed st2 ref in
  snd (mcp_route env st None true) = Delegated ref /\
  streamableTransports st1 = streamableTransports st /\
  mcp_route env' st2 (Some id) isInit = (st2, Delegated ref) /\
  (forall k, k <> id -> k <> ""%string ->
     snd (mcp_route env' st2 (Some k) isInit) = snd (mcp_route env' st (Some k) isInit)) /\
  mcp_route env' st3 (Some id) isInit =
    (st3, JsonRpcError 400 (-32000) "Bad Request: invalid MCP handshake").
Proof.
  intros Hid. pose proof (uuid_truthy id Hid) as Htr. cbv zeta.
  set (T0 := {| kind := Streamable; sessionId := None; server := buildMcpServer env |}).
  assert (mcp_route env st None true =
          (alloc (fst (build_logged env st)) T0, Delegated (next_ref st))) as ->
    by reflexivity.
  cbn [fst snd].
  set (st1 := alloc (fst (build_logged env st)) T0).
  assert (heap st1 !! next_ref st = Some T0) as H1 by apply lookup_insert_eq.
  assert (streamableTransports (session_initialized st1 (next_ref st) id) =
          <[id := next_ref st]> (streamableTransports st)) as Htab
    by (unfold session_initialized; rewrite H1; reflexivity).
  assert (heap (session_initialized st1 (next_ref st) id) !! next_ref st =
          Some (set_sessionId T0 id)) as H2
    by (unfold session_initialized; rewrite H1; apply lookup_insert_eq).
  set (st2 := session_initialized st1 (next_ref st) id) in *.
  split; [reflexivity|]. split; [reflexivity|]. split; [|split].
  - unfold mcp_route. rewrite Htr, Htab, get_prop_insert_eq. reflexivity.
  - intros k Hk Hne. unfold mcp_route. rewrite Htab.
    rewrite get_prop_insert_ne by exact Hk.
    assert (JS.truthy (Some k) = true) as ->
      by (cbn; now apply negb_true_iff, String.eqb_neq).
    cbn [andb negb].
    destruct (JS.get_prop (streamableTransports st) k); reflexivity.
  - assert (streamableTransports (streamable_closed st2 (next_ref st)) !! id = None) as H3.
    { unfold streamable_closed. rewrite H2. cbn [kind sessionId set_sessionId T0].
      rewrite Htr. cbn [streamableTransports]. apply lookup_delete_eq. }
    unfold mcp_route. rewrite Htr, (get_prop_absent_uuid _ id Hid H3). reflexivity.
Qed.

Lemma streamable_session_life_witness :
  mcp_route Sample.env
    (session_initialized (fst (mcp_route Sample.env init None true)) 0 Sample.uuid1)
    (Some Sample.uuid1) false =
  (session_initialized (fst (mcp_route Sample.env init None true)) 0 Sample.uuid1,
   Delegated 0).
Proof.
  exact (proj1 (proj2 (proj2 (streamable_session_life Sample.env Sample.env init
                                Sample.uuid1 false eq_refl)))).
Defined.

(** X14: the life of a legacy session.  After GET /sse a message posted
    with the new id is handed to the new transport, and a message posted
    with another id is answered as before; the streamable registry is
    untouched; after the response closes, a message posted with the id is
    answered 400 "Unknown or expired sessionId". *)
Theorem sse_session_life (env : Env) (st : State) (id : string) :
  is_uuid id = true ->
  let ref := next_ref st in
  let st1 := fst (sse_route env st id) in
  let st2 := sse_closed st1 ref in
  snd (sse_route env st id) = Opened ref /\
  messages_route st1 (Some id) = (st1, Delegated ref) /\
  (forall k, k <> id ->
     snd (messages_route st1 (Some k)) = snd (messages_route st (Some k))) /\
  streamableTransports st1 = streamableTransports st /\
  messages_route st2 (Some id) = (st2, PlainText 400 "Unknown or expired sessionId").
Proof.
  intros Hid. cbv zeta. unfold sse_route, build_logged. cbn [fst snd].
  split; [reflexivity|]. split; [|split; [|split; [reflexivity|]]].
  - unfold messages_route. cbn [sseTransports]. rewrite get_prop_insert_eq. reflexivity.
  - intros k Hk. unfold messages_route. cbn [sseTransports].
    rewrite get_prop_insert_ne by exact Hk.
    destruct (JS.get_prop (sseTransports st) k); reflexivity.
  - unfold sse_closed. cbn [heap]. rewrite lookup_insert_eq. cbn [kind sessionId].
    unfold messages_route. cbn [sseTransports].
    rewrite get_prop_absent_uuid by (exact Hid || apply lookup_delete_eq).
    reflexivity.
Qed.

Lemma sse_session_life_witness :
  messages_route (sse_closed (fst (sse_route Sample.env init Sample.uuid2)) 0)
    (Some Sample.uuid2) =
  (sse_closed (fst (sse_route Sample.env init Sample.uuid2)) 0,
   PlainText 400 "Unknown or expired sessionId").
Proof.
  exact (proj2 (proj2 (proj2 (proj2 (sse_session_life Sample.env init Sample.uuid2
                                       eq_refl))))).
Defined.

(** X15: the session header decides before the body is looked at.  An
    empty header counts as absent; without a header only an initialize
    request is let in; and a non-empty header that resolves to nothing in
    the registry gets the 400 answer even when the body is an initialize
    request. *)
Theorem mcp_header_rules (env : Env) (st : State) :
  (forall isInit, mcp_route env st (Some "") isInit = mcp_route env st None isInit) /\
  mcp_route env st None false =
    (st, JsonRpcError 400 (-32000) "Bad Request: invalid MCP handshake") /\
  (forall sid isInit,
     sid <> ""%string ->
     JS.get_prop (streamableTransports st) sid = JS.Undefined ->
     mcp_route env st (Some sid) isInit =
       (st, JsonRpcError 400 (-32000) "Bad Request: invalid MCP handshake")).
Proof.
  split; [reflexivity|]. split; [reflexivity|].
  intros sid isInit Hne Hg. unfold mcp_route. rewrite Hg.
  assert (JS.truthy (Some sid) = true) as ->
    by (cbn; now apply negb_true_iff, String.eqb_neq).
  reflexivity.
Qed.

Lemma mcp_header_rules_witness :
  mcp_route Sample.env init (Some Sample.uuid1) true =
  (init, JsonRpcError 400 (-32000) "Bad Request: invalid MCP handshake").
Proof.
  apply (proj2 (proj2 (mcp_header_rules Sample.env init))).
  - discriminate.
  - reflexivity.
Defined.

(** X16: the two registries are changed by callbacks only, each by its
    own: no request on /mcp or /messages changes either registry, the
    session-initialised and close callbacks of a streamable transport
    leave [sseTransports] alone, and GET /sse and the close of an SSE
    response leave [streamableTransports] alone. *)
Theorem registries_change_apart (env : Env) (st : State) (e : Event) :
  match e with
  | McpRequest _ _ | MessagesRequest _ =>
      streamableTransports (fst (step env st e)) = streamableTransports st /\
      sseTransports (fst (step env st e)) = sseTransports st
  | SessionInitialized _ _ | StreamableClosed _ =>
      sseTransports (fst (step env st e)) = sseTransports st
  | SseRequest _ | SseClosed _ =>
      streamableTransports (fst (step env st e)) = streamableTransports st
  end.
Proof.
  destruct e as [sid isInit | ref id | ref | id | ref | sid]; cbn [step fst].
  - unfold mcp_route, build_logged.
    destruct (JS.truthy sid && JS.truthy_prop _).
    + destruct (match sid with Some _ => _ | None => _ end); split; reflexivity.
    + destruct (negb (JS.truthy sid) && isInit); split; reflexivity.
  - unfold session_initialized.
    destruct (heap st !! ref) as [t|]; [|reflexivity].
    destruct (kind t); [|reflexivity].
    destruct (sessionId t); reflexivity.
  - unfold streamable_closed.
    destruct (heap st !! ref) as [t|]; [|reflexivity].
    destruct (kind t); [|reflexivity].
    destruct (JS.truthy (sessionId t)); [|reflexivity].
    destruct (sessionId t); reflexivity.
  - reflexivity.
  - unfold sse_closed.
    destruct (heap st !! ref) as [t|]; [|reflexivity].
    destruct (kind t); [reflexivity|].
    destruct (sessionId t); reflexivity.
  - unfold messages_route.
    destruct (negb _); [split; reflexivity|].
    destruct (JS.get_prop _ _); split; reflexivity.
Qed.

Lemma heap_streamable_closed (st : State) (r : nat) :
  heap (streamable_closed st r) = heap st.
Proof.
  unfold streamable_closed.
  destruct (heap st !! r) as [t|]; [|reflexivity].
  destruct (kind t); [|reflexivity].
  destruct (JS.truthy (sessionId t)); [|reflexivity].
  destruct (sessionId t); reflexivity.
Qed.

Lemma heap_sse_closed (st : State) (r : nat) : heap (sse_closed st r) = heap st.
Proof.
  unfold sse_closed.
  destruct (heap st !! r) as [t|]; [|reflexivity].
  destruct (kind t); [reflexivity|].
  destruct (sessionId t); reflexivity.
Qed.

Ltac close_cases :=
  repeat match goal with
         | |- context [match ?h !! ?r with Some _ => _ | None => _ end] =>
             destruct (h !! r) as [?t|] eqn:?
         | |- context [match kind ?t with Streamable => _ | Sse => _ end] =>
             destruct (kind t) eqn:?
         | |- context [if JS.truthy ?v then _ else _] =>
             destruct (JS.truthy v) eqn:?
         | |- context [match sessionId ?t with Some _ => _ | None => _ end] =>
             destruct (sessionId t) eqn:?
         end.

(** X17: closes compose freely: closing a transport twice is closing it
    once, and the closes of two transports, streamable or SSE, give the
    same state in either order. *)
Theorem closes_compose (st : State) (r1 r2 : nat) :
  streamable_closed (streamable_closed st r1) r1 = streamable_closed st r1 /\
  sse_closed (sse_closed st r1) r1 = sse_closed st r1 /\
  streamable_closed (streamable_closed st r1) r2 =
    streamable_closed (streamable_closed st r2) r1 /\
  sse_closed (sse_closed st r1) r2 = sse_closed (sse_closed st r2) r1 /\
  sse_closed (streamable_closed st r1) r2 = streamable_closed (sse_closed st r2) r1.
Proof.
  repeat split.
  - unfold streamable_closed at 1. rewrite heap_streamable_closed.
    unfold streamable_closed. close_cases; try reflexivity.
    cbn [streamableTransports sseTransports next_ref zone_reads heap].
    now rewrite delete_delete_eq.
  - unfold sse_closed at 1. rewrite heap_sse_closed.
    unfold sse_closed. close_cases; try reflexivity.
    cbn [streamableTransports sseTransports next_ref zone_reads heap].
    now rewrite delete_delete_eq.
  - unfold streamable_closed at 1 3. rewrite !heap_streamable_closed.
    unfold streamable_closed. close_cases; try reflexivity.
    cbn [streamableTransports sseTransports next_ref zone_reads heap].
    now rewrite delete_delete.
  - unfold sse_closed at 1 3. rewrite !heap_sse_closed.
    unfold sse_closed. close_cases; try reflexivity.
    cbn [streamableTransports sseTransports next_ref zone_reads heap].
    now rewrite delete_delete.
  - etransitivity;
      [unfold sse_closed; rewrite heap_streamable_closed; reflexivity|].
    symmetry. etransitivity;
      [unfold streamable_closed; rewrite heap_sse_closed; reflexivity|].
    unfold sse_closed, streamable_closed. close_cases; reflexivity.
Qed.

Lemma keys_generated_step (env : Env) (st : State) (e : Event) :
  event_ok e -> Spec.keys_generated st -> Spec.keys_generated (fst (step env st e)).
Proof.
  intros Hok Hg. pose proof Hg as [Hs He].
  destruct e as [sid isInit | ref id | ref | id | ref | sid]; cbn [step fst event_ok] in *.
  - unfold mcp_route, build_logged.
    destruct (JS.truthy sid && JS.truthy_prop _).
    + destruct (match sid with Some _ => _ | None => _ end); exact Hg.
    + destruct (negb (JS.truthy sid) && isInit); exact Hg.
  - unfold session_initialized.
    destruct (heap st !! ref) as [t|]; [|exact Hg].
    destruct (kind t); [|exact Hg].
    destruct (sessionId t); [exact Hg|].
    split; [|exact He]. cbn [streamableTransports]. intros key r Hr.
    destruct (decide (id = key)) as [<-|Hne]; [exact Hok|].
    rewrite lookup_insert_ne in Hr by exact Hne. exact (Hs key r Hr).
  - unfold streamable_closed.
    destruct (heap st !! ref) as [t|]; [|exact Hg].
    destruct (kind t); [|exact Hg].
    destruct (JS.truthy (sessionId t)); [|exact Hg].
    destruct (sessionId t) as [id|]; [|exact Hg].
    split; [|exact He]. cbn [streamableTransports]. intros key r Hr.
    apply lookup_delete_Some in Hr as [_ Hr]. exact (Hs key r Hr).
  - unfold sse_route, build_logged. split; [exact Hs|].
    cbn [fst sseTransports]. intros key r Hr.
    destruct (decide (id = key)) as [<-|Hne]; [exact Hok|].
    rewrite lookup_insert_ne in Hr by exact Hne. exact (He key r Hr).
  - unfold sse_closed.
    destruct (heap st !! ref) as [t|]; [|exact Hg].
    destruct (kind t); [exact Hg|].
    destruct (sessionId t) as [id|]; [|exact Hg].
    split; [exact Hs|]. cbn [sseTransports]. intros key r Hr.
    apply lookup_delete_Some in Hr as [_ Hr]. exact (He key r Hr).
  - unfold messages_route.
    destruct (negb _); [exact Hg|].
    destruct (JS.get_prop _ _); exact Hg.
Qed.

Lemma reachable_keys_generated (st : State) : reachable st -> Spec.keys_generated st.
Proof.
  induction 1 as [|env st e _ IH Hok].
  - split; intros k r H; cbn in H; rewrite lookup_empty in H; discriminate.
  - apply keys_generated_step; assumption.
Qed.

Lemma get_prop_undefined {A} (own : gmap string A) (k : string) :
  own !! k = None -> k ∉ JS.object_prototype_keys -> JS.get_prop own k = JS.Undefined.
Proof.
  intros Hn Hk. unfold JS.get_prop. rewrite Hn.
  now rewrite bool_decide_eq_false_2.
Qed.

(** X18: in every reachable state the registries hold generated session
    ids only, so a request whose id is not of that shape (and is not a
    property name of [Object.prototype]) reuses nothing: POST /messages
    answers 400 for it, as it does when the id is absent, and /mcp answers
    400 for it unless the id is empty. *)
Theorem foreign_id_rejected (st : State) :
  reachable st ->
  Spec.keys_generated st /\
  messages_route st None = (st, PlainText 400 "Unknown or expired sessionId") /\
  (forall sid,
     is_uuid sid = false -> sid ∉ JS.object_prototype_keys ->
     messages_route st (Some sid) = (st, PlainText 400 "Unknown or expired sessionId") /\
     (forall env isInit,
        sid <> ""%string ->
        mcp_route env st (Some sid) isInit =
          (st, JsonRpcError 400 (-32000) "Bad Request: invalid MCP handshake"))).
Proof.
  intros Hr. pose proof (reachable_keys_generated st Hr) as [Hs He].
  assert (forall (table : gmap string nat) (k : string),
            (forall key ref, table !! key = Some ref -> is_uuid key = true) ->
            is_uuid k = false -> table !! k = None) as Habs.
  { intros table k Hall Hk. destruct (table !! k) as [r|] eqn:E; [|reflexivity].
    apply Hall in E. congruence. }
  split; [split; assumption|]. split.
  - unfold messages_route.
    rewrite get_prop_undefined; [reflexivity | apply Habs; [exact He | reflexivity] |].
    unfold JS.object_prototype_keys. intros Hin.
    repeat (apply elem_of_cons in Hin as [Hin|Hin]; [discriminate Hin|]).
    now apply elem_of_nil in Hin.
  - intros sid Hk Hp. split.
    + unfold messages_route.
      rewrite get_prop_undefined; [reflexivity | apply Habs; assumption | exact Hp].
    + intros env isInit Hne. unfold mcp_route.
      rewrite get_prop_undefined; [| apply Habs; assumption | exact Hp].
      assert (JS.truthy (Some sid) = true) as ->
        by (cbn; now apply negb_true_iff, String.eqb_neq).
      reflexivity.
Qed.

Lemma foreign_id_rejected_witness :
  messages_route
    (run init [ (Sample.env, SseRequest Sample.uuid1) ]) (Some "no-such-session") =
  (run init [ (Sample.env, SseRequest Sample.uuid1) ],
   PlainText 400 "Unknown or expired sessionId").
Proof.
  assert (reachable (run init [ (Sample.env, SseRequest Sample.uuid1) ])) as Hr.
  { apply reachable_run; [apply reachable_init|].
    repeat (apply Forall_cons; split; [vm_compute; auto|]). apply Forall_nil_2. }
  apply (proj2 (proj2 (foreign_id_rejected _ Hr)) "no-such-session").
  - reflexivity.
  - unfold JS.object_prototype_keys. intros Hin.
    repeat (apply elem_of_cons in Hin as [Hin|Hin]; [discriminate Hin|]).
    now apply elem_of_nil in Hin.
Defined.

(* ---------------------------------------------------------------------- *)
(** *** The schema of the time argument and the parser *)
(* ---------------------------------------------------------------------- *)

Lemma time_schema_match (s : string) :
  time_schema s = true -> exists h m, match_HHmm s = Some (h, m).
Proof.
  destruct s as [|a [|b [|sep [|c [|d [|e s]]]]]]; try discriminate.
  cbn [time_schema match_HHmm]. intros ->. eauto.
Qed.

(** Whether [DateTime.fromFormat(s, 'HH:mm')] is valid, in terms of the
    shape of [s]. *)
Lemma fromFormat_HHmm_valid (db : ZoneDb) (sys : string) (clk : Z) (s : string) :
  match fromFormat_HHmm db sys clk s with Some _ => true | None => false end =
  Spec.strict_HHMM s || String.eqb s "24:00".
Proof.
  destruct (fromFormat_HHmm_accepts db sys clk s) as [Hyes Hno].
  destruct (Spec.strict_HHMM s || String.eqb s "24:00").
  - destruct (Hyes eq_refl) as [dt ->]. reflexivity.
  - rewrite (Hno eq_refl). reflexivity.
Qed.

(** X19: the tool schema and the parser [DateTime.fromFormat(_, 'HH:mm')]
    look for the same shape: every time the parser accepts passes the
    schema, and a time that passes the schema is two two-digit numbers
    around a colon, which the parser reads as hour and minute and then
    accepts exactly when the first is at most 23 and the second at most
    59, or they are 24 and 0. *)
Theorem time_schema_and_parser (db : ZoneDb) (sys : string) (clk : Z) (s : string) :
  let valid :=
    match fromFormat_HHmm db sys clk s with Some _ => true | None => false end in
  (valid = true -> time_schema s = true) /\
  (time_schema s = true ->
   exists h m,
     0 <= h < 100 /\ 0 <= m < 100 /\
     s = padStart h 2 +:+ ":" +:+ padStart m 2 /\
     match_HHmm s = Some (h, m) /\
     valid_time_data h m = (h <=? 23) && (m <=? 59) || (h =? 24) && (m =? 0) /\
     valid = (h <=? 23) && (m <=? 59) || (h =? 24) && (m =? 0)).
Proof.
  cbv zeta. rewrite fromFormat_HHmm_valid.
  split; [apply time_schema_covers|].
  intros Hs. destruct (time_schema_match s Hs) as (h & m & Hm).
  exists h, m. destruct (match_HHmm_print s h m Hm) as (Hh & Hmin & Hprint).
  destruct (match_HHmm_some s h m Hm) as (Hstrict & Hh0 & Hm0 & H24).
  split; [lia|]. split; [lia|]. split; [exact Hprint|]. split; [exact Hm|].
  split.
  - unfold valid_time_data.
    replace (0 <=? h) with true by lia. replace (0 <=? m) with true by lia.
    destruct (h <=? 23) eqn:L1; destruct (m <=? 59) eqn:L2;
      destruct (h =? 24) eqn:E1; destruct (m =? 0) eqn:E2; cbn; try reflexivity; lia.
  - rewrite Hstrict. f_equal.
    destruct (String.eqb_spec s "24:00") as [E|E].
    + apply H24 in E as [-> ->]. reflexivity.
    + symmetry. apply andb_false_iff.
      destruct (Z.eqb_spec h 24) as [E1|]; [|now left].
      destruct (Z.eqb_spec m 0) as [E2|]; [|now right].
      exfalso. apply E, H24. split; assumption.
Qed.

Lemma time_schema_and_parser_witness :
  time_schema "14:30" = true /\
  exists h m,
    0 <= h < 100 /\ 0 <= m < 100 /\
    "24:30"%string = padStart h 2 +:+ ":" +:+ padStart m 2 /\
    match_HHmm "24:30" = Some (h, m) /\
    valid_time_data h m = (h <=? 23) && (m <=? 59) || (h =? 24) && (m =? 0) /\
    match fromFormat_HHmm Sample.db "UTC" 1719837296789 "24:30" with
    | Some _ => true
    | None => false
    end = (h <=? 23) && (m <=? 59) || (h =? 24) && (m =? 0).
Proof.
  split.
  - apply (proj1 (time_schema_and_parser Sample.db "UTC" 1719837296789 "14:30")).
    reflexivity.
  - apply (proj2 (time_schema_and_parser Sample.db "UTC" 1719837296789 "24:30")).
    reflexivity.
Defined.

(* ---------------------------------------------------------------------- *)
(** *** Reading a difference string back *)
(* ---------------------------------------------------------------------- *)

Lemma digits_value_app (s t : string) : forall acc,
  Spec.digits_value (s +:+ t) acc = Spec.digits_value t (Spec.digits_value s acc).
Proof. induction s as [|c s IH]; intros acc; [reflexivity | apply IH]. Qed.

(** The digits printed for a number denote it. *)
Lemma decimal_value (n : Z) : 0 <= n -> Spec.digits_value (JS.decimal n) 0 = n.
Proof.
  intros Hn. remember (Z.to_nat n) as k eqn:Hk. revert n Hn Hk.
  induction k as [k IH] using lt_wf_ind. intros n Hn Hk.
  destruct (Z_lt_le_dec n 10) as [L|G].
  - rewrite decimal_small by lia. cbn [Spec.digits_value].
    rewrite digit_value_char by lia. lia.
  - rewrite decimal_step, digits_value_app by lia.
    rewrite (IH (Z.to_nat (n / 10))); [| | apply Z.div_pos; lia | reflexivity].
    + cbn [Spec.digits_value]. rewrite digit_value_char.
      * symmetry. apply Z.div_mod. lia.
      * pose proof (Z.mod_pos_bound n 10). lia.
    + subst k. apply Z2Nat.inj_lt; [apply Z.div_pos; lia | lia |].
      apply Z.div_lt; lia.
Qed.

Lemma decimal_inj (a b : Z) : 0 <= a -> 0 <= b -> JS.decimal a = JS.decimal b -> a = b.
Proof.
  intros Ha Hb H. rewrite <- (decimal_value a Ha), <- (decimal_value b Hb). now rewrite H.
Qed.

Lemma digits_from_all_digits (f : nat) : forall (n : Z) (acc : string),
  0 <= n -> Spec.all_digits acc = true ->
  Spec.all_digits (JS.digits_from f n acc) = true.
Proof.
  induction f as [|f IH]; intros n acc Hn Hacc; cbn [JS.digits_from]; [exact Hacc|].
  assert (Spec.all_digits (String (JS.digit_char (n mod 10)) acc) = true) as Hd.
  { cbn [Spec.all_digits]. rewrite digit_char_is_digit, Hacc; [reflexivity|].
    pose proof (Z.mod_pos_bound n 10). lia. }
  destruct (n <? 10); [exact Hd|].
  apply IH; [apply Z.div_pos; lia | exact Hd].
Qed.

Lemma decimal_all_digits (n : Z) : 0 <= n -> Spec.all_digits (JS.decimal n) = true.
Proof. intros H. apply digits_from_all_digits; [exact H | reflexivity]. Qed.

(** Two runs of digits, each followed by a character that is no digit, are
    equal when the whole strings are. *)
Lemma digits_split (p1 : string) : forall (p2 : string) (c1 c2 : ascii) (r1 r2 : string),
  Spec.all_digits p1 = true -> Spec.all_digits p2 = true ->
  JS.is_digit c1 = false -> JS.is_digit c2 = false ->
  p1 +:+ String c1 r1 = p2 +:+ String c2 r2 ->
  p1 = p2 /\ String c1 r1 = String c2 r2.
Proof.
  induction p1 as [|x p1 IH]; intros [|y p2] c1 c2 r1 r2 H1 H2 N1 N2 E;
    cbn [String.append] in E.
  - split; [reflexivity | exact E].
  - injection E as -> _. cbn [Spec.all_digits] in H2.
    apply andb_true_iff in H2 as [H2 _]. congruence.
  - injection E as -> _. cbn [Spec.all_digits] in H1.
    apply andb_true_iff in H1 as [H1 _]. congruence.
  - injection E as -> E. cbn [Spec.all_digits] in H1, H2.
    apply andb_true_iff in H1 as [_ H1]. apply andb_true_iff in H2 as [_ H2].
    destruct (IH p2 c1 c2 r1 r2 H1 H2 N1 N2 E) as [-> Hr]. split; [reflexivity | exact Hr].
Qed.

Lemma digit_char_inj (a b : Z) :
  0 <= a <= 9 -> 0 <= b <= 9 -> JS.digit_char a = JS.digit_char b -> a = b.
Proof.
  intros Ha Hb H. rewrite <- (digit_value_char a Ha), <- (digit_value_char b Hb).
  now rewrite H.
Qed.

Lemma digit_char_not_h (d : Z) : 0 <= d <= 9 -> JS.digit_char d <> "h"%char.
Proof.
  intros Hd E. pose proof (digit_char_is_digit d Hd) as H. rewrite E in H. discriminate H.
Qed.

Lemma time_difference_shape (m : Z) :
  Spec.time_difference m =
  String (if 0 <=? m then "+"%char else "-"%char) (Spec.difference_body (Z.abs m)).
Proof.
  unfold Spec.time_difference, Spec.difference_body.
  destruct (0 <=? m); destruct (Z.abs m mod 60 =? 0); reflexivity.
Qed.

(** The unsigned part of the difference string determines the minutes. *)
Lemma difference_body_inj (a1 a2 : Z) :
  0 <= a1 -> 0 <= a2 ->
  Spec.difference_body a1 = Spec.difference_body a2 -> a1 = a2.
Proof.
  intros H1 H2. unfold Spec.difference_body. cbv zeta.
  set (c1 := (100 * a1 + 30) / 60). set (c2 := (100 * a2 + 30) / 60).
  assert (0 <= c1) as Hc1 by (apply Z.div_pos; lia).
  assert (0 <= c2) as Hc2 by (apply Z.div_pos; lia).
  assert (0 <= c1 / 10 mod 10 <= 9) as D11 by (pose proof (Z.mod_pos_bound (c1 / 10) 10); lia).
  assert (0 <= c2 / 10 mod 10 <= 9) as D21 by (pose proof (Z.mod_pos_bound (c2 / 10) 10); lia).
  assert (0 <= c1 mod 10 <= 9) as D12 by (pose proof (Z.mod_pos_bound c1 10); lia).
  assert (0 <= c2 mod 10 <= 9) as D22 by (pose proof (Z.mod_pos_bound c2 10); lia).
  destruct (Z.eqb_spec (a1 mod 60) 0) as [M1|M1];
    destruct (Z.eqb_spec (a2 mod 60) 0) as [M2|M2]; cbn [String.append]; intros E.
  - apply digits_split in E as [E _];
      try (apply decimal_all_digits, Z.div_pos; lia); try reflexivity.
    apply decimal_inj in E; try (apply Z.div_pos; lia).
    revert M1 M2 E. Z.div_mod_to_equations. lia.
  - apply digits_split in E as [_ E];
      try (apply decimal_all_digits, Z.div_pos; lia); try reflexivity.
    discriminate E.
  - apply digits_split in E as [_ E];
      try (apply decimal_all_digits, Z.div_pos; lia); try reflexivity.
    discriminate E.
  - apply digits_split in E as [E T];
      try (apply decimal_all_digits, Z.div_pos; lia); try reflexivity.
    apply decimal_inj in E; try (apply Z.div_pos; lia).
    injection T as T1 T2. apply digit_char_inj in T1; try assumption.
    assert (c1 mod 10 = c2 mod 10) as T3.
    { destruct (Z.eqb_spec (c1 mod 10) 0) as [Z1|Z1];
        destruct (Z.eqb_spec (c2 mod 10) 0) as [Z2|Z2]; cbn [String.append] in T2.
      - congruence.
      - injection T2 as T2 _. symmetry in T2. now apply digit_char_not_h in T2.
      - injection T2 as T2 _. now apply digit_char_not_h in T2.
      - injection T2 as T2. apply digit_char_inj in T2; assumption. }
    assert (c1 = c2) as Ec
      by (revert E T1 T3; clear; Z.div_mod_to_equations; lia).
    revert Ec. subst c1 c2. clear. Z.div_mod_to_equations. lia.
Qed.

(** X20: the difference string determines the offset difference: two
    different numbers of minutes never print alike. *)
Theorem timeDiffStr_injective (m1 m2 : Z) : m1 <> m2 -> timeDiffStr m1 <> timeDiffStr m2.
Proof.
  intros Hne. rewrite !timeDiffStr_spec, !time_difference_shape.
  destruct (Z.leb_spec 0 m1) as [S1|S1]; destruct (Z.leb_spec 0 m2) as [S2|S2];
    intros E; injection E as E; try discriminate.
  - apply difference_body_inj in E; lia.
  - apply difference_body_inj in E; lia.
Qed.

Lemma timeDiffStr_injective_witness : timeDiffStr 330 <> timeDiffStr 331.
Proof. apply (timeDiffStr_injective 330 331). lia. Defined.

(* ---------------------------------------------------------------------- *)
(** *** Creating a session *)
(* ---------------------------------------------------------------------- *)

(** X21: in every reachable state, creating a session (an initialize
    request without a session header on /mcp, or GET /sse) makes a
    transport under a reference no transport had, with a server instance
    built for it, and leaves every existing transport, with its session id
    and its instance, as it was. *)
Theorem session_creation_is_fresh (env : Env) (st : State) (id : string) :
  reachable st ->
  heap st !! next_ref st = None /\
  (snd (mcp_route env st None true) = Delegated (next_ref st) /\
   heap (fst (mcp_route env st None true)) !! next_ref st =
     Some {| kind := Streamable; sessionId := None; server := buildMcpServer env |} /\
   forall r t, heap st !! r = Some t ->
               heap (fst (mcp_route env st None true)) !! r = Some t) /\
  (snd (sse_route env st id) = Opened (next_ref st) /\
   heap (fst (sse_route env st id)) !! next_ref st =
     Some {| kind := Sse; sessionId := Some id; server := buildMcpServer env |} /\
   forall r t, heap st !! r = Some t ->
               heap (fst (sse_route env st id)) !! r = Some t).
Proof.
  intros Hr. destruct (reachable_invariant st Hr) as [_ Hb].
  pose proof (refs_bounded_fresh st Hb) as Hf.
  split; [exact Hf|]. split.
  - split; [reflexivity|]. split; [apply lookup_insert_eq|].
    intros r t Ht. change (<[next_ref st := {| kind := Streamable; sessionId := None;
                                               server := buildMcpServer env |}]> (heap st) !! r
                           = Some t).
    rewrite lookup_insert_ne; [exact Ht|]. intros <-. congruence.
  - split; [reflexivity|]. split; [apply lookup_insert_eq|].
    intros r t Ht. change (<[next_ref st := {| kind := Sse; sessionId := Some id;
                                               server := buildMcpServer env |}]> (heap st) !! r
                           = Some t).
    rewrite lookup_insert_ne; [exact Ht|]. intros <-. congruence.
Qed.

Lemma session_creation_is_fresh_witness :
  heap (run init [ (Sample.env, SseRequest Sample.uuid1) ]) !! 1%nat = None.
Proof.
  assert (reachable (run init [ (Sample.env, SseRequest Sample.uuid1) ])) as Hr.
  { apply reachable_run; [apply reachable_init|].
    repeat (apply Forall_cons; split; [vm_compute; auto|]). apply Forall_nil_2. }
  exact (proj1 (session_creation_is_fresh Sample.env _ Sample.uuid2 Hr)).
Defined.
